(** * Notion MCP server: the transformation engine of [server.js]

    A shallow embedding of [extractAllProperties], [getPageContent] and the
    two tool handlers of [server.js], over a model of the JavaScript values
    that the Notion client hands to them.

    Strings are Rocq byte strings holding the UTF-8 form of the JavaScript
    text: concatenation, comparison with the constants below and the test
    [text.length > 0] agree on both representations.  Where the runtime
    takes a string apart ([Object.entries] and the spread of a primitive
    string) the splitting is a parameter of the model, like the numbers.

    The lines written with [console.error] go to a side channel and are
    left out. *)

From Stdlib Require Import String Ascii List Bool Arith Lia ZArith.
From Stdlib Require Import Decimal DecimalString.
Import ListNotations.
Open Scope string_scope.
Set Warnings "-register-all,-notation-for-abbreviation".

(** ** String constants of the source *)

Module PROPERTY_TYPES.
Definition TITLE := "title".
Definition RICH_TEXT := "rich_text".
Definition NUMBER := "number".
Definition SELECT := "select".
Definition MULTI_SELECT := "multi_select".
Definition DATE := "date".
Definition CHECKBOX := "checkbox".
Definition URL := "url".
Definition EMAIL := "email".
Definition PHONE_NUMBER := "phone_number".
Definition PEOPLE := "people".
Definition RELATION := "relation".
End PROPERTY_TYPES.

Module BLOCK_TYPES.
Definition PARAGRAPH := "paragraph".
Definition HEADING_1 := "heading_1".
Definition HEADING_2 := "heading_2".
Definition HEADING_3 := "heading_3".
Definition BULLETED_LIST_ITEM := "bulleted_list_item".
Definition NUMBERED_LIST_ITEM := "numbered_list_item".
Definition TO_DO := "to_do".
Definition TOGGLE := "toggle".
Definition CODE := "code".
Definition QUOTE := "quote".
Definition DIVIDER := "divider".
End BLOCK_TYPES.

Module FIELD_NAMES.
Definition PLAIN_TEXT := "plain_text".
Definition NAME := "name".
Definition START := "start".
Definition CHECKED := "checked".
Definition LANGUAGE := "language".
Definition ID := "id".
Definition URL := "url".
Definition CREATED_TIME := "created_time".
Definition LAST_EDITED_TIME := "last_edited_time".
Definition PAGE_ID := "page_id".
Definition BLOCK_ID := "block_id".
Definition START_CURSOR := "start_cursor".
Definition NEXT_CURSOR := "next_cursor".
Definition RESULTS := "results".
Definition PROPERTIES := "properties".
Definition TYPE := "type".
Definition OBJECT := "object".
Definition PAGE := "page".
End FIELD_NAMES.

Module MARKDOWN_SYMBOLS.
Definition H1 := "# ".
Definition H2 := "## ".
Definition H3 := "### ".
Definition BULLET := "• ".
Definition NUMBER := "1. ".
Definition CHECKED := "✓".
Definition UNCHECKED := "○".
Definition TOGGLE := "▸ ".
Definition QUOTE := "> ".
Definition DIVIDER := "---".
Definition CODE_BLOCK_START := "```".
Definition NEWLINE := String (ascii_of_nat 10) EmptyString.
Definition CODE_BLOCK_END := NEWLINE ++ "```".
Definition DOUBLE_NEWLINE := NEWLINE ++ NEWLINE.
End MARKDOWN_SYMBOLS.

(** ** Exceptions

    The runtime raises a [TypeError] at four kinds of places in this
    program; everything the Notion client or the server itself throws is an
    [Error] carrying its message. *)

Inductive TypeErrorKind :=
| ReadOfNullish (key : string)
| NotAFunction (key : string)
| NotIterable
| NotPrimitive.

Inductive JsError :=
| TypeError (kind : TypeErrorKind)
| Error (message : string).

Inductive Result (A : Type) :=
| Ok (a : A)
| Throw (e : JsError).

Arguments Ok {A} a.
Arguments Throw {A} e.

Definition bind {A B : Type} (c : Result A) (k : A -> Result B) : Result B :=
  match c with
  | Ok a => k a
  | Throw e => Throw e
  end.

Notation "x <- c ;; k" := (bind c (fun x => k))
  (at level 61, c at next level, right associativity).

Fixpoint mapM {A B : Type} (f : A -> Result B) (xs : list A) : Result (list B) :=
  match xs with
  | [] => Ok []
  | x :: rest => y <- f x ;; ys <- mapM f rest ;; Ok (y :: ys)
  end.

Definition decimal (n : nat) : string := NilZero.string_of_uint (Nat.to_uint n).

(** ** An instance of the runtime parameters

    Integers stand for the numbers in the worked examples, whose strings
    are ASCII text, one byte to the code unit; the messages are those of
    V8. *)
Module Engine.
Definition number_to_boolean (z : Z) : bool := negb (Z.eqb z 0).
Definition number_to_string (z : Z) : string :=
  match z with
  | Z0 => "0"
  | Zpos p => decimal (Pos.to_nat p)
  | Zneg p => "-" ++ decimal (Pos.to_nat p)
  end.
Definition number_of_length (n : nat) : Z := Z.of_nat n.
Fixpoint characters (s : string) : list string :=
  match s with
  | EmptyString => []
  | String c rest => String c EmptyString :: characters rest
  end.
Definition code_units : string -> list string := characters.
Definition code_points : string -> list string := characters.
Definition type_error_message (kind : TypeErrorKind) : string :=
  match kind with
  | ReadOfNullish key => "Cannot read properties of undefined (reading '" ++ key ++ "')"
  | NotAFunction key => key ++ " is not a function"
  | NotIterable => "Spread syntax requires ...iterable[Symbol.iterator] to be a function"
  | NotPrimitive => "Cannot convert object to primitive value"
  end.
End Engine.

(** ** The block model of the specification

    Written from the data model and the formatting table of the
    specification, independently of the code. *)
Inductive TextKind :=
| Paragraph
| Heading1
| Heading2
| Heading3
| BulletedListItem
| NumberedListItem
| Toggle
| Quote.

Inductive Block :=
| TextBlock (kind : TextKind) (runs : list string)
| ToDo (checked : bool) (runs : list string)
| Code (language : string) (runs : list string)
| Divider
| Other (kind : string).

Definition kind_tag (kind : TextKind) : string :=
  match kind with
  | Paragraph => "paragraph"
  | Heading1 => "heading_1"
  | Heading2 => "heading_2"
  | Heading3 => "heading_3"
  | BulletedListItem => "bulleted_list_item"
  | NumberedListItem => "numbered_list_item"
  | Toggle => "toggle"
  | Quote => "quote"
  end.

Definition spec_prefix (kind : TextKind) : string :=
  match kind with
  | Paragraph => ""
  | Heading1 => "# "
  | Heading2 => "## "
  | Heading3 => "### "
  | BulletedListItem => "• "
  | NumberedListItem => "1. "
  | Toggle => "▸ "
  | Quote => "> "
  end.

Definition closed_kinds : list string :=
  ["paragraph"; "heading_1"; "heading_2"; "heading_3"; "bulleted_list_item";
   "numbered_list_item"; "to_do"; "toggle"; "code"; "quote"; "divider"].


Definition newline : string := String (ascii_of_nat 10) EmptyString.

Definition joined_text (runs : list string) : string := String.concat "" runs.

Definition spec_render (b : Block) : string :=
  match b with
  | TextBlock kind runs => spec_prefix kind ++ joined_text runs
  | ToDo checked runs => (if checked then "✓ " else "○ ") ++ joined_text runs
  | Code language runs =>
      "```" ++ language ++ newline ++ joined_text runs ++ newline ++ "```"
  | Divider => "---"
  | Other kind => "[" ++ kind ++ "]"
  end.

Section Runtime.

(** The number type of the runtime and the three ways the server touches
    it: [ToBoolean], [ToString] and the [length] of an array.  The text of
    the engine's [TypeError] messages is a parameter as well. *)
Variable Number : Type.
Variable number_to_boolean : Number -> bool.
Variable number_to_string : Number -> string.
Variable number_of_length : nat -> Number.
Variable type_error_message : TypeErrorKind -> string.

(** The code units of a string, as [Object.entries] lists them, and its
    code points, as the string iterator yields them; each is given as a
    string of its own. *)
Variable code_units : string -> list string.
Variable code_points : string -> list string.

(** ** Values

    [JObj] lists the own enumerable properties of an object in the order
    [Object.entries] reports them; in such a list the keys are pairwise
    distinct.  A read of a repeated key finds the first. *)
Inductive JsVal :=
| JUndefined
| JNull
| JBool (b : bool)
| JNum (n : Number)
| JStr (s : string)
| JArr (items : list JsVal)
| JObj (fields : list (string * JsVal)).

Definition error_message (e : JsError) : string :=
  match e with
  | TypeError kind => type_error_message kind
  | Error message => message
  end.

Fixpoint own_property (fields : list (string * JsVal)) (key : string) : option JsVal :=
  match fields with
  | [] => None
  | (k, v) :: rest => if String.eqb k key then Some v else own_property rest key
  end.

Definition is_nullish (v : JsVal) : bool :=
  match v with
  | JUndefined | JNull => true
  | _ => false
  end.

(** [v[key]].  Exact for the keys the server reads, none of which is an
    inherited member, an array index or [length]. *)
Definition get (v : JsVal) (key : string) : Result JsVal :=
  match v with
  | JUndefined | JNull => Throw (TypeError (ReadOfNullish key))
  | JObj fields =>
      match own_property fields key with
      | Some x => Ok x
      | None => Ok JUndefined
      end
  | _ => Ok JUndefined
  end.

Definition to_boolean (v : JsVal) : bool :=
  match v with
  | JUndefined | JNull => false
  | JBool b => b
  | JNum n => number_to_boolean n
  | JStr s => negb (String.eqb s "")
  | JArr _ | JObj _ => true
  end.

(** [a || b] on values already computed. *)
Definition or_else (a b : JsVal) : JsVal := if to_boolean a then a else b.

(** [Array.prototype.join] over an element conversion. *)
Definition join_with {A : Type} (elem : A -> Result string) (sep : string) :=
  fix go (xs : list A) : Result string :=
    match xs with
    | [] => Ok ""
    | [x] => elem x
    | x :: rest => s <- elem x ;; t <- go rest ;; Ok (s ++ sep ++ t)
    end.

(** [ToString].  An array prints its elements joined by a comma, with
    nothing for [undefined] and [null]; a plain object prints as
    [[object Object]] unless it has an own [toString] entry, which data
    read from JSON never makes callable. *)
Fixpoint to_string (v : JsVal) : Result string :=
  match v with
  | JUndefined => Ok "undefined"
  | JNull => Ok "null"
  | JBool b => Ok (if b then "true" else "false")
  | JNum n => Ok (number_to_string n)
  | JStr s => Ok s
  | JArr items =>
      join_with (fun x => match x with
                          | JUndefined | JNull => Ok ""
                          | _ => to_string x
                          end) "," items
  | JObj fields =>
      match own_property fields "toString" with
      | Some _ => Throw (TypeError NotPrimitive)
      | None => Ok "[object Object]"
      end
  end.

Definition join_element (x : JsVal) : Result string :=
  match x with
  | JUndefined | JNull => Ok ""
  | _ => to_string x
  end.

(** [items.join(sep)] *)
Definition array_join (sep : string) (items : list JsVal) : Result string :=
  join_with join_element sep items.

(** [recv.map(f)]: only an array has a callable [map]. *)
Definition call_map {B : Type} (recv : JsVal) (f : JsVal -> Result B) : Result (list B) :=
  match recv with
  | JUndefined | JNull => Throw (TypeError (ReadOfNullish "map"))
  | JArr items => mapM f items
  | _ => Throw (TypeError (NotAFunction "map"))
  end.

(** [v === s] for a string constant [s]. *)
Definition is_string (v : JsVal) (s : string) : bool :=
  match v with
  | JStr t => String.eqb t s
  | _ => false
  end.

(** ** The block renderer: the callback of [blocks.map] in [getPageContent] *)

(** [payload[RICH_TEXT].map(t => t[PLAIN_TEXT]).join('')] *)
Definition joined_runs (payload : JsVal) : Result string :=
  rich_text <- get payload PROPERTY_TYPES.RICH_TEXT ;;
  texts <- call_map rich_text (fun t => get t FIELD_NAMES.PLAIN_TEXT) ;;
  array_join "" texts.

Definition prefixed (symbol : string) (block : JsVal) (kind : string) : Result string :=
  payload <- get block kind ;;
  text <- joined_runs payload ;;
  Ok (symbol ++ text).

Definition render (block : JsVal) : Result string :=
  type <- get block FIELD_NAMES.TYPE ;;
  if is_string type BLOCK_TYPES.PARAGRAPH then
    payload <- get block BLOCK_TYPES.PARAGRAPH ;;
    joined_runs payload
  else if is_string type BLOCK_TYPES.HEADING_1 then
    prefixed MARKDOWN_SYMBOLS.H1 block BLOCK_TYPES.HEADING_1
  else if is_string type BLOCK_TYPES.HEADING_2 then
    prefixed MARKDOWN_SYMBOLS.H2 block BLOCK_TYPES.HEADING_2
  else if is_string type BLOCK_TYPES.HEADING_3 then
    prefixed MARKDOWN_SYMBOLS.H3 block BLOCK_TYPES.HEADING_3
  else if is_string type BLOCK_TYPES.BULLETED_LIST_ITEM then
    prefixed MARKDOWN_SYMBOLS.BULLET block BLOCK_TYPES.BULLETED_LIST_ITEM
  else if is_string type BLOCK_TYPES.NUMBERED_LIST_ITEM then
    prefixed MARKDOWN_SYMBOLS.NUMBER block BLOCK_TYPES.NUMBERED_LIST_ITEM
  else if is_string type BLOCK_TYPES.TO_DO then
    payload <- get block BLOCK_TYPES.TO_DO ;;
    flag <- get payload FIELD_NAMES.CHECKED ;;
    let checked := if to_boolean flag then MARKDOWN_SYMBOLS.CHECKED
                   else MARKDOWN_SYMBOLS.UNCHECKED in
    text <- joined_runs payload ;;
    Ok (checked ++ " " ++ text)
  else if is_string type BLOCK_TYPES.TOGGLE then
    prefixed MARKDOWN_SYMBOLS.TOGGLE block BLOCK_TYPES.TOGGLE
  else if is_string type BLOCK_TYPES.CODE then
    payload <- get block BLOCK_TYPES.CODE ;;
    language <- get payload FIELD_NAMES.LANGUAGE ;;
    tag <- to_string language ;;
    text <- joined_runs payload ;;
    Ok (MARKDOWN_SYMBOLS.CODE_BLOCK_START ++ tag ++ MARKDOWN_SYMBOLS.NEWLINE
        ++ text ++ MARKDOWN_SYMBOLS.CODE_BLOCK_END)
  else if is_string type BLOCK_TYPES.QUOTE then
    prefixed MARKDOWN_SYMBOLS.QUOTE block BLOCK_TYPES.QUOTE
  else if is_string type BLOCK_TYPES.DIVIDER then
    Ok MARKDOWN_SYMBOLS.DIVIDER
  else
    kind <- to_string type ;;
    Ok ("[" ++ kind ++ "]").

(** ** The property normalizer: [extractAllProperties] *)

(** [recv?.map(f)] *)
Definition optional_map (recv : JsVal) (f : JsVal -> Result JsVal) : Result JsVal :=
  if is_nullish recv then Ok JUndefined
  else items <- call_map recv f ;; Ok (JArr items).

(** [recv?.[key]] *)
Definition optional_get (recv : JsVal) (key : string) : Result JsVal :=
  if is_nullish recv then Ok JUndefined else get recv key.

(** [value[kind]?.map(t => t[PLAIN_TEXT]).join('') || ''], where [kind] is
    the value's own type tag, [title] or [rich_text]. *)
Definition text_property (value : JsVal) (kind : string) : Result JsVal :=
  runs <- get value kind ;;
  chained <- (if is_nullish runs then Ok JUndefined
              else texts <- call_map runs (fun t => get t FIELD_NAMES.PLAIN_TEXT) ;;
                   s <- array_join "" texts ;;
                   Ok (JStr s)) ;;
  Ok (or_else chained (JStr "")).

(** The value that one turn of the loop assigns to [properties[key]]. *)
Definition property_value (value : JsVal) : Result JsVal :=
  type <- get value FIELD_NAMES.TYPE ;;
  if is_string type PROPERTY_TYPES.TITLE then
    text_property value PROPERTY_TYPES.TITLE
  else if is_string type PROPERTY_TYPES.RICH_TEXT then
    text_property value PROPERTY_TYPES.RICH_TEXT
  else if is_string type PROPERTY_TYPES.NUMBER then
    get value PROPERTY_TYPES.NUMBER
  else if is_string type PROPERTY_TYPES.SELECT then
    option <- get value PROPERTY_TYPES.SELECT ;;
    name <- optional_get option FIELD_NAMES.NAME ;;
    Ok (or_else name JNull)
  else if is_string type PROPERTY_TYPES.MULTI_SELECT then
    options <- get value PROPERTY_TYPES.MULTI_SELECT ;;
    names <- optional_map options (fun s => get s FIELD_NAMES.NAME) ;;
    Ok (or_else names (JArr []))
  else if is_string type PROPERTY_TYPES.DATE then
    date <- get value PROPERTY_TYPES.DATE ;;
    start <- optional_get date FIELD_NAMES.START ;;
    Ok (or_else start JNull)
  else if is_string type PROPERTY_TYPES.CHECKBOX then
    get value PROPERTY_TYPES.CHECKBOX
  else if is_string type PROPERTY_TYPES.URL then
    get value PROPERTY_TYPES.URL
  else if is_string type PROPERTY_TYPES.EMAIL then
    get value PROPERTY_TYPES.EMAIL
  else if is_string type PROPERTY_TYPES.PHONE_NUMBER then
    get value PROPERTY_TYPES.PHONE_NUMBER
  else if is_string type PROPERTY_TYPES.PEOPLE then
    people <- get value PROPERTY_TYPES.PEOPLE ;;
    names <- optional_map people
               (fun p => name <- get p FIELD_NAMES.NAME ;;
                         if to_boolean name then Ok name else get p FIELD_NAMES.ID) ;;
    Ok (or_else names (JArr []))
  else if is_string type PROPERTY_TYPES.RELATION then
    relation <- get value PROPERTY_TYPES.RELATION ;;
    ids <- optional_map relation (fun r => get r FIELD_NAMES.ID) ;;
    Ok (or_else ids (JArr []))
  else
    Ok value.

(** Own property [key] of a list of properties becomes [v]: in place when
    the key is there, at the end otherwise. *)
Fixpoint put (fields : list (string * JsVal)) (key : string) (v : JsVal)
  : list (string * JsVal) :=
  match fields with
  | [] => [(key, v)]
  | (k, x) :: rest =>
      if String.eqb k key then (k, v) :: rest else (k, x) :: put rest key v
  end.

(** [properties[key] = v] on the object that [extractAllProperties] creates
    with [{}].  That object inherits the accessor [__proto__] of
    [Object.prototype]: an assignment to that key runs the inherited setter,
    which replaces the prototype (or does nothing) and creates no own
    property.  Every other key becomes an own property. *)
Definition assign (properties : list (string * JsVal)) (key : string) (v : JsVal)
  : list (string * JsVal) :=
  if String.eqb key "__proto__" then properties else put properties key v.

Fixpoint indexed (start : nat) (items : list JsVal) : list (string * JsVal) :=
  match items with
  | [] => []
  | x :: rest => (decimal start, x) :: indexed (S start) rest
  end.

(** [Object.entries(v)] for [v] other than [undefined] and [null]. *)
Definition entries (v : JsVal) : list (string * JsVal) :=
  match v with
  | JObj fields => fields
  | JArr items => indexed 0 items
  | JStr s => indexed 0 (map JStr (code_units s))
  | _ => []
  end.

Fixpoint extract_loop (todo : list (string * JsVal)) (properties : list (string * JsVal))
  : Result (list (string * JsVal)) :=
  match todo with
  | [] => Ok properties
  | (key, value) :: rest =>
      v <- property_value value ;;
      extract_loop rest (assign properties key v)
  end.

Definition extractAllProperties (page : JsVal) : Result JsVal :=
  raw <- get page FIELD_NAMES.PROPERTIES ;;
  properties <- extract_loop (entries (or_else raw (JObj []))) [] ;;
  Ok (JObj properties).

(** ** What [JSON.stringify] keeps

    The handlers hand their result object to [JSON.stringify]; the layout
    of the text is not modelled, only the JSON value the text denotes: a
    member whose value is [undefined] is left out of an object, and an
    [undefined] element of an array is written as [null].  Numbers are
    finite, as those read from JSON and the lengths of arrays are. *)
Fixpoint json_view (v : JsVal) : JsVal :=
  match v with
  | JArr items =>
      JArr (map (fun x => match x with
                          | JUndefined => JNull
                          | _ => json_view x
                          end) items)
  | JObj fields =>
      JObj ((fix members (fs : list (string * JsVal)) : list (string * JsVal) :=
               match fs with
               | [] => []
               | (k, JUndefined) :: rest => members rest
               | (k, x) :: rest => (k, json_view x) :: members rest
               end) fields)
  | _ => v
  end.

(** ** The Notion client

    The three calls the server makes, each with the argument object it
    builds.  The client is any deterministic state machine answering
    them. *)
Inductive Request :=
| PagesRetrieve (args : JsVal)
| BlocksChildrenList (args : JsVal)
| NotionSearch (args : JsVal).

(** [spread v]: the elements that [push(...v)] receives. *)
Definition spread (v : JsVal) : Result (list JsVal) :=
  match v with
  | JArr items => Ok items
  | JStr s => Ok (map JStr (code_points s))
  | _ => Throw (TypeError NotIterable)
  end.

(** The lines of a page: [blocks.map(...).filter(text => text.length > 0)] *)
Definition rendered_lines (blocks : list JsVal) : Result (list string) :=
  lines <- mapM render blocks ;;
  Ok (filter (fun text => Nat.ltb 0 (String.length text)) lines).

Record PageData := {
  page : JsVal;
  properties : JsVal;
  content : string;
  blocks : list JsVal
}.

(** [catch (error) { throw new Error(prefix + error.message) }] *)
Definition rethrow {A : Type} (prefix : string) (c : Result A) : Result A :=
  match c with
  | Ok a => Ok a
  | Throw e => Throw (Error (prefix ++ error_message e))
  end.

(** The argument objects of the three calls. *)
Definition retrieve_request (pageId : string) : Request :=
  PagesRetrieve (JObj [(FIELD_NAMES.PAGE_ID, JStr pageId)]).

Definition list_request (pageId : string) (cursor : JsVal) : Request :=
  BlocksChildrenList
    (JObj [(FIELD_NAMES.BLOCK_ID, JStr pageId); (FIELD_NAMES.START_CURSOR, cursor)]).

Definition search_request (query : string) : Request :=
  NotionSearch (JObj [("query", JStr query);
                ("filter", JObj [("property", JStr FIELD_NAMES.OBJECT);
                                 ("value", JStr FIELD_NAMES.PAGE)])]).

Section Server.

Variable ClientState : Type.
Variable notion : Request -> ClientState -> Result JsVal * ClientState.

(** The state a handler runs in: the client, and a record of every call
    made to it with its outcome.  The record is only written. *)
Record World := {
  client : ClientState;
  calls : list (Request * Result JsVal)
}.

Definition await (request : Request) (w : World) : Result JsVal * World :=
  let (outcome, next) := notion request (client w) in
  (outcome, {| client := next; calls := (calls w ++ [(request, outcome)])%list |}).

(** One turn of the [do ... while (cursor)] body after the call returned:
    the accumulator with the results appended, and the next cursor. *)
Definition absorb (response : JsVal) (blocks : list JsVal) : Result (list JsVal * JsVal) :=
  results <- get response FIELD_NAMES.RESULTS ;;
  items <- spread results ;;
  cursor <- get response FIELD_NAMES.NEXT_CURSOR ;;
  Ok ((blocks ++ items)%list, cursor).

(** The pagination loop of [getPageContent].  [fuel] bounds the number of
    turns; [None] means the bound was reached with a cursor still pending. *)
Fixpoint paginate (fuel : nat) (pageId : string) (cursor : JsVal) (blocks : list JsVal)
  (w : World) : option (Result (list JsVal) * World) :=
  match fuel with
  | 0 => None
  | S fuel' =>
      let (outcome, w1) := await (list_request pageId cursor) w in
      match response <- outcome ;; absorb response blocks with
      | Throw e => Some (Throw e, w1)
      | Ok (blocks', cursor') =>
          if to_boolean cursor' then paginate fuel' pageId cursor' blocks' w1
          else Some (Ok blocks', w1)
      end
  end.

Definition content_prefix := "Failed to get page content: ".

Definition getPageContent (fuel : nat) (pageId : string) (w : World)
  : option (Result PageData * World) :=
  let (retrieved, w1) := await (retrieve_request pageId) w in
  match retrieved with
  | Throw e => Some (rethrow content_prefix (Throw e), w1)
  | Ok page =>
      match paginate fuel pageId JUndefined [] w1 with
      | None => None
      | Some (fetched, w2) =>
          Some (rethrow content_prefix
                  (blocks <- fetched ;;
                   lines <- rendered_lines blocks ;;
                   properties <- extractAllProperties page ;;
                   Ok {| page := page;
                         properties := properties;
                         content := String.concat MARKDOWN_SYMBOLS.DOUBLE_NEWLINE lines;
                         blocks := blocks |}),
                w2)
      end
  end.

(** ** The tool handlers

    A handler returns [{content: [{type: 'text', text: JSON.stringify(o,
    null, 2)}]}]; its result here is the JSON value of that text. *)

Definition search_result (page : JsVal) : Result JsVal :=
  id <- get page FIELD_NAMES.ID ;;
  url <- get page FIELD_NAMES.URL ;;
  created_time <- get page FIELD_NAMES.CREATED_TIME ;;
  last_edited_time <- get page FIELD_NAMES.LAST_EDITED_TIME ;;
  properties <- extractAllProperties page ;;
  Ok (JObj [(FIELD_NAMES.ID, id);
            (FIELD_NAMES.URL, url);
            (FIELD_NAMES.CREATED_TIME, created_time);
            (FIELD_NAMES.LAST_EDITED_TIME, last_edited_time);
            (FIELD_NAMES.PROPERTIES, properties)]).

Definition search_prefix := "Failed to search Notion: ".

Definition search_notion (query : string) (w : World) : Result JsVal * World :=
  let (outcome, w1) := await (search_request query) w in
  (rethrow search_prefix
     (response <- outcome ;;
      listed <- get response FIELD_NAMES.RESULTS ;;
      results <- call_map listed search_result ;;
      Ok (json_view
            (JObj [("query", JStr query);
                   ("total_results", JNum (number_of_length (length results)));
                   ("results", JArr results)]))),
   w1).

Definition page_prefix := "Failed to get page: ".

Definition get_notion_page (fuel : nat) (page_id : string) (w : World)
  : option (Result JsVal * World) :=
  match getPageContent fuel page_id w with
  | None => None
  | Some (outcome, w1) =>
      Some (rethrow page_prefix
              (pageData <- outcome ;;
               url <- get (page pageData) FIELD_NAMES.URL ;;
               Ok (json_view
                     (JObj [(FIELD_NAMES.PAGE_ID, JStr page_id);
                            (FIELD_NAMES.URL, url);
                            (FIELD_NAMES.PROPERTIES, properties pageData);
                            ("content", JStr (content pageData));
                            ("total_blocks",
                             JNum (number_of_length (length (blocks pageData))))]))),
            w1)
  end.

End Server.

Arguments client {ClientState} w.
Arguments calls {ClientState} w.
Arguments await {ClientState} notion request w.
Arguments paginate {ClientState} notion fuel pageId cursor blocks w.
Arguments getPageContent {ClientState} notion fuel pageId w.
Arguments search_notion {ClientState} notion query w.
Arguments get_notion_page {ClientState} notion fuel page_id w.

(** ** A scripted client

    A stand-in for the Notion client that replays prepared outcomes: one
    for the page retrieval, one for the search, and a sequence for the
    block listings, consumed one per call. *)
Record Script := {
  retrieve_outcome : Result JsVal;
  list_outcomes : list (Result JsVal);
  search_outcome : Result JsVal
}.

Definition scripted (request : Request) (s : Script) : Result JsVal * Script :=
  match request with
  | PagesRetrieve _ => (retrieve_outcome s, s)
  | NotionSearch _ => (search_outcome s, s)
  | BlocksChildrenList _ =>
      match list_outcomes s with
      | [] => (Throw (Error "no scripted response left"), s)
      | outcome :: rest =>
          (outcome, {| retrieve_outcome := retrieve_outcome s;
                       list_outcomes := rest;
                       search_outcome := search_outcome s |})
      end
  end.

(** A block-listing response as the API documents it. *)
Definition list_response (results : list JsVal) (next_cursor : JsVal) : JsVal :=
  JObj [(FIELD_NAMES.OBJECT, JStr "list");
        (FIELD_NAMES.RESULTS, JArr results);
        (FIELD_NAMES.NEXT_CURSOR, next_cursor)].

(** ** Raw values and the data model *)

(** [payload] carries the text runs [runs]. *)
Definition carries_runs (payload : JsVal) (runs : list string) : Prop :=
  exists items,
    get payload "rich_text" = Ok (JArr items) /\
    Forall2 (fun item text => get item "plain_text" = Ok (JStr text)) items runs.

(** The raw value [v] is the block [b] with its documented payload; other
    members of [v] and of its payload are free. *)
Definition represents (v : JsVal) (b : Block) : Prop :=
  match b with
  | TextBlock kind runs =>
      get v "type" = Ok (JStr (kind_tag kind)) /\
      exists payload, get v (kind_tag kind) = Ok payload /\ carries_runs payload runs
  | ToDo checked runs =>
      get v "type" = Ok (JStr "to_do") /\
      exists payload,
        get v "to_do" = Ok payload /\
        get payload "checked" = Ok (JBool checked) /\
        carries_runs payload runs
  | Code language runs =>
      get v "type" = Ok (JStr "code") /\
      exists payload,
        get v "code" = Ok payload /\
        get payload "language" = Ok (JStr language) /\
        carries_runs payload runs
  | Divider => get v "type" = Ok (JStr "divider")
  | Other kind => get v "type" = Ok (JStr kind) /\ ~ In kind closed_kinds
  end.

(** What a read yields, with [undefined] where the read would throw. *)
Definition field (v : JsVal) (key : string) : JsVal :=
  match get v key with
  | Ok x => x
  | Throw _ => JUndefined
  end.





(** ** The property model of the specification *)

Inductive TextProperty :=
| Title
| RichText.

Inductive RawProperty :=
| Url
| Email
| PhoneNumber.

Record Person := {
  person_name : option string;
  person_id : string
}.

(** A property value as the data model has it.  [PAbsent kind] is a value
    of an enumerated kind whose kind-specific member is missing; [POther]
    is a value of a kind that is not enumerated. *)
Inductive Property :=
| PText (kind : TextProperty) (runs : list string)
| PNumber (n : Number)
| PSelect (option_name : option string)
| PMultiSelect (names : list string)
| PDate (start : option string)
| PCheckbox (checked : bool)
| PRaw (kind : RawProperty) (text : string)
| PPeople (persons : list Person)
| PRelation (ids : list string)
| PAbsent (kind : string)
| POther (kind : string) (raw : JsVal).

Definition text_tag (kind : TextProperty) : string :=
  match kind with
  | Title => "title"
  | RichText => "rich_text"
  end.

Definition raw_tag (kind : RawProperty) : string :=
  match kind with
  | Url => "url"
  | Email => "email"
  | PhoneNumber => "phone_number"
  end.

Definition property_kinds : list string :=
  ["title"; "rich_text"; "number"; "select"; "multi_select"; "date"; "checkbox";
   "url"; "email"; "phone_number"; "people"; "relation"].

Definition person_label (p : Person) : string :=
  match person_name p with
  | Some name => name
  | None => person_id p
  end.

(** What the code yields when the kind-specific member is missing: the
    kinds read through a fallback give it, the kinds read raw give
    [undefined]. *)
Definition absent_default (kind : string) : JsVal :=
  if existsb (String.eqb kind) ["title"; "rich_text"] then JStr ""
  else if existsb (String.eqb kind) ["select"; "date"] then JNull
  else if existsb (String.eqb kind) ["multi_select"; "people"; "relation"] then JArr []
  else JUndefined.

Definition spec_normalize (p : Property) : JsVal :=
  match p with
  | PText _ runs => JStr (joined_text runs)
  | PNumber n => JNum n
  | PSelect (Some name) => JStr name
  | PSelect None => JNull
  | PMultiSelect names => JArr (map JStr names)
  | PDate (Some start) => JStr start
  | PDate None => JNull
  | PCheckbox checked => JBool checked
  | PRaw _ text => JStr text
  | PPeople persons => JArr (map (fun p => JStr (person_label p)) persons)
  | PRelation ids => JArr (map JStr ids)
  | PAbsent kind => absent_default kind
  | POther _ raw => raw
  end.

(** [items] are records whose member [key] holds the strings [texts]. *)
Definition members_are (key : string) (items : list JsVal) (texts : list string) : Prop :=
  Forall2 (fun item text => get item key = Ok (JStr text)) items texts.

Definition represents_person (item : JsVal) (p : Person) : Prop :=
  get item "id" = Ok (JStr (person_id p)) /\
  match person_name p with
  | Some name => name <> "" /\ get item "name" = Ok (JStr name)
  | None => get item "name" = Ok JNull \/ get item "name" = Ok JUndefined
  end.

(** The raw value [v] is the property [p].  Option names and date starts
    are non-empty, as the API has them. *)
Definition represents_property (v : JsVal) (p : Property) : Prop :=
  match p with
  | PText kind runs =>
      get v "type" = Ok (JStr (text_tag kind)) /\
      exists items, get v (text_tag kind) = Ok (JArr items) /\
                    members_are "plain_text" items runs
  | PNumber n =>
      get v "type" = Ok (JStr "number") /\ get v "number" = Ok (JNum n)
  | PSelect None =>
      get v "type" = Ok (JStr "select") /\ get v "select" = Ok JNull
  | PSelect (Some name) =>
      get v "type" = Ok (JStr "select") /\ name <> "" /\
      exists option, get v "select" = Ok option /\ get option "name" = Ok (JStr name)
  | PMultiSelect names =>
      get v "type" = Ok (JStr "multi_select") /\
      exists items, get v "multi_select" = Ok (JArr items) /\
                    members_are "name" items names
  | PDate None =>
      get v "type" = Ok (JStr "date") /\ get v "date" = Ok JNull
  | PDate (Some start) =>
      get v "type" = Ok (JStr "date") /\ start <> "" /\
      exists date, get v "date" = Ok date /\ get date "start" = Ok (JStr start)
  | PCheckbox checked =>
      get v "type" = Ok (JStr "checkbox") /\ get v "checkbox" = Ok (JBool checked)
  | PRaw kind text =>
      get v "type" = Ok (JStr (raw_tag kind)) /\ get v (raw_tag kind) = Ok (JStr text)
  | PPeople persons =>
      get v "type" = Ok (JStr "people") /\
      exists items, get v "people" = Ok (JArr items) /\
                    Forall2 represents_person items persons
  | PRelation ids =>
      get v "type" = Ok (JStr "relation") /\
      exists items, get v "relation" = Ok (JArr items) /\ members_are "id" items ids
  | PAbsent kind =>
      In kind property_kinds /\
      get v "type" = Ok (JStr kind) /\ get v kind = Ok JUndefined
  | POther kind raw =>
      get v "type" = Ok (JStr kind) /\ ~ In kind property_kinds /\ raw = v
  end.

(** The entries of a property map paired with their model. *)
Definition modelled (fields : list (string * JsVal)) (props : list Property) : Prop :=
  Forall2 (fun entry p => represents_property (snd entry) p) fields props.

(** The assignments of the loop, as a fold over keys paired with values. *)
Definition assign_all (pairs : list (string * JsVal)) (start : list (string * JsVal))
  : list (string * JsVal) :=
  fold_left (fun acc pair => assign acc (fst pair) (snd pair)) pairs start.

(** ** Scripted block listings *)

(** A block-listing response together with what the loop reads from it. *)
Record Listing := {
  listing_response : JsVal;
  listing_results : list JsVal;
  listing_cursor : JsVal
}.

Definition well_listed (l : Listing) : Prop :=
  get (listing_response l) "results" = Ok (JArr (listing_results l)) /\
  get (listing_response l) "next_cursor" = Ok (listing_cursor l).

Definition listed (listings : list Listing) : list (Result JsVal) :=
  map (fun l => Ok (listing_response l)) listings.

(** The calls that draining [listings] makes, the first with [cursor]. *)
Fixpoint listing_calls (pageId : string) (cursor : JsVal) (listings : list Listing)
  : list (Request * Result JsVal) :=
  match listings with
  | [] => []
  | l :: rest =>
      (list_request pageId cursor, Ok (listing_response l))
        :: listing_calls pageId (listing_cursor l) rest
  end.

Definition last_cursor (cursor : JsVal) (listings : list Listing) : JsVal :=
  fold_left (fun _ l => listing_cursor l) listings cursor.

Definition all_results (listings : list Listing) : list JsVal :=
  concat (map listing_results listings).

Definition script (retrieved : Result JsVal) (listings : list (Result JsVal))
  (searched : Result JsVal) : Script :=
  {| retrieve_outcome := retrieved;
     list_outcomes := listings;
     search_outcome := searched |}.

(** ** Search results *)






(** ** Worked examples

    Raw values in the shape the Notion API returns them, used to run the
    definitions above. *)

Definition text_run (text : string) : JsVal :=
  JObj [("type", JStr "text"); ("plain_text", JStr text); ("href", JNull)].

Definition example_divider : JsVal :=
  JObj [("object", JStr "block"); ("type", JStr "divider"); ("divider", JObj [])].

Definition example_empty_paragraph : JsVal :=
  JObj [("object", JStr "block"); ("type", JStr "paragraph");
        ("paragraph", JObj [("rich_text", JArr []); ("color", JStr "default")])].

Definition example_heading : JsVal :=
  JObj [("object", JStr "block"); ("type", JStr "heading_2");
        ("heading_2", JObj [("rich_text", JArr [text_run "Intro"])])].

Definition example_to_do : JsVal :=
  JObj [("object", JStr "block"); ("type", JStr "to_do");
        ("to_do", JObj [("rich_text", JArr [text_run "Buy "; text_run "milk"]);
                        ("checked", JBool false)])].

(** A paragraph block that lacks its payload, and one whose payload lacks
    the rich-text sequence. *)
Definition bare_paragraph : JsVal := JObj [("type", JStr "paragraph")].


Definition example_properties : list (string * JsVal) :=
  [("Name", JObj [("id", JStr "title"); ("type", JStr "title");
                  ("title", JArr [text_run "Road"; text_run "map"])]);
   ("Done", JObj [("id", JStr "a1"); ("type", JStr "checkbox"); ("checkbox", JBool true)]);
   ("Tags", JObj [("id", JStr "a2"); ("type", JStr "multi_select");
                  ("multi_select", JArr [JObj [("name", JStr "A")];
                                         JObj [("name", JStr "B")]])]);
   ("Stage", JObj [("id", JStr "a3"); ("type", JStr "select"); ("select", JNull)]);
   ("Owner", JObj [("id", JStr "a4"); ("type", JStr "people");
                   ("people", JArr [JObj [("id", JStr "u1"); ("name", JStr "Ada")];
                                    JObj [("id", JStr "u2"); ("name", JNull)]])]);
   ("Estimate", JObj [("id", JStr "a5"); ("type", JStr "number");
                      ("number", JNum (number_of_length 8))]);
   ("Score", JObj [("id", JStr "a6"); ("type", JStr "number")]);
   ("Notes", JObj [("id", JStr "a7"); ("type", JStr "rich_text")])].

Definition example_model : list Property :=
  [PText Title ["Road"; "map"];
   PCheckbox true;
   PMultiSelect ["A"; "B"];
   PSelect None;
   PPeople [{| person_name := Some "Ada"; person_id := "u1" |};
            {| person_name := None; person_id := "u2" |}];
   PNumber (number_of_length 8);
   PAbsent "number";
   PAbsent "rich_text"].

Definition example_page : JsVal :=
  JObj [("object", JStr "page"); ("id", JStr "p1");
        ("created_time", JStr "2024-01-01T00:00:00.000Z");
        ("last_edited_time", JStr "2024-01-02T00:00:00.000Z");
        ("url", JStr "https://www.notion.so/p1");
        ("properties", JObj example_properties)].


(** The property map of a page whose database names a property
    [__proto__], as [JSON.parse] hands it over: an own member like any
    other. *)
Definition proto_properties : list (string * JsVal) :=
  [("__proto__", JObj [("id", JStr "a8"); ("type", JStr "formula");
                       ("formula", JObj [("type", JStr "string");
                                         ("string", JStr "x")])])].

Definition proto_page : JsVal := JObj [("properties", JObj proto_properties)].

Definition first_listing : Listing :=
  {| listing_response := list_response [example_divider; example_empty_paragraph]
                                       (JStr "abc");
     listing_results := [example_divider; example_empty_paragraph];
     listing_cursor := JStr "abc" |}.

Definition last_listing : Listing :=
  {| listing_response := list_response [example_heading] JNull;
     listing_results := [example_heading];
     listing_cursor := JNull |}.




Definition search_response : JsVal :=
  JObj [("object", JStr "list"); ("results", JArr [example_page]);
        ("next_cursor", JNull); ("has_more", JBool false)].

(** A client with a page of three blocks listed in two responses. *)
Definition example_world : World Script :=
  {| client := script (Ok example_page)
                      (listed [first_listing; last_listing])
                      (Ok search_response);
     calls := [] |}.

(** A client whose second block listing fails. *)
Definition failing_world : World Script :=
  {| client := script (Ok example_page)
                      (listed [first_listing] ++ [Throw (Error "rate limited")])%list
                      (Ok search_response);
     calls := [] |}.

(** ** The discipline of calls *)


(** ** Further examples *)

(** A page object without its property map, as a partial page response. *)
Definition partial_page : JsVal := JObj [("object", JStr "page"); ("id", JStr "p2")].

(** A title property whose member is a string instead of a run array. *)
Definition title_as_text : JsVal :=
  JObj [("id", JStr "title"); ("type", JStr "title"); ("title", JStr "Roadmap")].

(** A property map with a [null] among its values. *)
Definition null_valued_properties : list (string * JsVal) :=
  [("Done", JObj [("id", JStr "a1"); ("type", JStr "checkbox"); ("checkbox", JBool true)]);
   ("Broken", JNull);
   ("Tags", JObj [("id", JStr "a2"); ("type", JStr "multi_select");
                  ("multi_select", JArr [])])].

Definition null_valued_page : JsVal :=
  JObj [("id", JStr "p3"); ("properties", JObj null_valued_properties)].

(** A client whose page has a paragraph without payload between two
    well-formed blocks. *)
Definition malformed_world : World Script :=
  {| client := script (Ok example_page)
                      [Ok (list_response [example_heading; bare_paragraph; example_divider]
                                         JNull)]
                      (Ok search_response);
     calls := [] |}.

(** A client whose page holds two empty paragraphs and nothing else. *)
Definition blank_world : World Script :=
  {| client := script (Ok example_page)
                      [Ok (list_response [example_empty_paragraph; example_empty_paragraph]
                                         JNull)]
                      (Ok search_response);
     calls := [] |}.

(** A client that refuses the search. *)
Definition refused_world : World Script :=
  {| client := script (Ok example_page) [] (Throw (Error "API token is invalid."));
     calls := [] |}.



(** The text a run contributes to a join: its [plain_text] when that is a
    string, nothing when it is missing or [null]. *)
Definition run_text (item : JsVal) : string :=
  match field item "plain_text" with
  | JStr s => s
  | _ => ""
  end.

Definition run_joinable (item : JsVal) : bool :=
  negb (is_nullish item) &&
  match field item "plain_text" with
  | JStr _ | JUndefined | JNull => true
  | _ => false
  end.

(** A to-do item without its [checked] member and with a run that has no
    [plain_text]. *)
Definition loose_to_do : JsVal :=
  JObj [("type", JStr "to_do");
        ("to_do", JObj [("rich_text", JArr [text_run "Call "; JObj [("type", JStr "mention")];
                                            text_run "back"])])].

(** A code block without its [language] member. *)
Definition loose_code : JsVal :=
  JObj [("type", JStr "code");
        ("code", JObj [("rich_text", JArr [text_run "x = 1"])])].

(** A block without a [type] member. *)
Definition untyped_block : JsVal := JObj [("object", JStr "block"); ("id", JStr "b9")].


(** A client that answers every block listing with one block and a cursor
    for more, counting the listings it served. *)
Definition insistent (request : Request) (served : nat) : Result JsVal * nat :=
  match request with
  | PagesRetrieve _ => (Ok example_page, served)
  | BlocksChildrenList _ => (Ok (list_response [example_divider] (JStr "more")), S served)
  | NotionSearch _ => (Ok search_response, served)
  end.

(** A client whose page has no [url] member. *)
Definition urlless_world : World Script :=
  {| client := script (Ok partial_page) [Ok (list_response [example_divider] JNull)]
                      (Ok search_response);
     calls := [] |}.


(** * Properties *)

(** Spell the constants of the source out as the strings they are. *)
Ltac spell :=
  cbv delta [PROPERTY_TYPES.TITLE
    PROPERTY_TYPES.RICH_TEXT
    PROPERTY_TYPES.NUMBER
    PROPERTY_TYPES.SELECT
    PROPERTY_TYPES.MULTI_SELECT
    PROPERTY_TYPES.DATE
    PROPERTY_TYPES.CHECKBOX
    PROPERTY_TYPES.URL
    PROPERTY_TYPES.EMAIL
    PROPERTY_TYPES.PHONE_NUMBER
    PROPERTY_TYPES.PEOPLE
    PROPERTY_TYPES.RELATION
    BLOCK_TYPES.PARAGRAPH
    BLOCK_TYPES.HEADING_1
    BLOCK_TYPES.HEADING_2
    BLOCK_TYPES.HEADING_3
    BLOCK_TYPES.BULLETED_LIST_ITEM
    BLOCK_TYPES.NUMBERED_LIST_ITEM
    BLOCK_TYPES.TO_DO
    BLOCK_TYPES.TOGGLE
    BLOCK_TYPES.CODE
    BLOCK_TYPES.QUOTE
    BLOCK_TYPES.DIVIDER
    FIELD_NAMES.PLAIN_TEXT
    FIELD_NAMES.NAME
    FIELD_NAMES.START
    FIELD_NAMES.CHECKED
    FIELD_NAMES.LANGUAGE
    FIELD_NAMES.ID
    FIELD_NAMES.URL
    FIELD_NAMES.CREATED_TIME
    FIELD_NAMES.LAST_EDITED_TIME
    FIELD_NAMES.PAGE_ID
    FIELD_NAMES.BLOCK_ID
    FIELD_NAMES.START_CURSOR
    FIELD_NAMES.NEXT_CURSOR
    FIELD_NAMES.RESULTS
    FIELD_NAMES.PROPERTIES
    FIELD_NAMES.TYPE
    FIELD_NAMES.OBJECT
    FIELD_NAMES.PAGE] in *.

(** ** The symbols, byte for byte *)

Lemma markdown_symbols_utf8 :
  list_byte_of_string MARKDOWN_SYMBOLS.BULLET
  = [Byte.xe2; Byte.x80; Byte.xa2; Byte.x20] /\
  list_byte_of_string MARKDOWN_SYMBOLS.CHECKED = [Byte.xe2; Byte.x9c; Byte.x93] /\
  list_byte_of_string MARKDOWN_SYMBOLS.UNCHECKED = [Byte.xe2; Byte.x97; Byte.x8b] /\
  list_byte_of_string MARKDOWN_SYMBOLS.TOGGLE
  = [Byte.xe2; Byte.x96; Byte.xb8; Byte.x20] /\
  list_byte_of_string MARKDOWN_SYMBOLS.DOUBLE_NEWLINE = [Byte.x0a; Byte.x0a].
Proof.
  repeat split; reflexivity.
Qed.

(** ** Joining and mapping *)

Lemma array_join_strings (sep : string) (texts : list string) :
  array_join sep (map JStr texts) = Ok (String.concat sep texts).
Proof.
  induction texts as [|x rest IH]; [reflexivity|].
  destruct rest as [|y rest]; [reflexivity|].
  change (array_join sep (map JStr (x :: y :: rest)))
    with (s <- join_element (JStr x) ;;
          t <- array_join sep (map JStr (y :: rest)) ;; Ok (s ++ sep ++ t)).
  rewrite IH. reflexivity.
Qed.

Lemma mapM_length {A B : Type} (f : A -> Result B) (xs : list A) (ys : list B) :
  mapM f xs = Ok ys -> length ys = length xs.
Proof.
  revert ys. induction xs as [|x rest IH]; intros ys H; simpl in H.
  - inversion H. reflexivity.
  - destruct (f x) as [y|e]; simpl in H; [|discriminate].
    destruct (mapM f rest) as [zs|e]; simpl in H; [|discriminate].
    inversion H. simpl. f_equal. apply IH. reflexivity.
Qed.

Lemma mapM_Forall2 {A B C : Type} (f : A -> Result B) (g : C -> B)
  (xs : list A) (cs : list C) :
  Forall2 (fun x c => f x = Ok (g c)) xs cs -> mapM f xs = Ok (map g cs).
Proof.
  induction 1 as [|x c xs cs Hx _ IH]; simpl; [reflexivity|].
  rewrite Hx, IH. reflexivity.
Qed.

Lemma joined_runs_carries (payload : JsVal) (runs : list string) :
  carries_runs payload runs -> joined_runs payload = Ok (joined_text runs).
Proof.
  intros (items & Hrich & Hruns). unfold joined_runs.
  change PROPERTY_TYPES.RICH_TEXT with "rich_text". rewrite Hrich. simpl.
  rewrite (mapM_Forall2 (fun t => get t FIELD_NAMES.PLAIN_TEXT) JStr items runs Hruns).
  simpl. apply array_join_strings.
Qed.

(** ** The renderer on the documented blocks *)

Lemma outside_closed_kinds (kind : string) :
  ~ In kind closed_kinds ->
  forall tag, In tag closed_kinds -> String.eqb kind tag = false.
Proof.
  intros Hout tag Hin. apply String.eqb_neq. intro Heq. subst. contradiction.
Qed.

Lemma render_other (block : JsVal) (kind : string) :
  get block "type" = Ok (JStr kind) ->
  ~ In kind closed_kinds ->
  render block = Ok ("[" ++ kind ++ "]").
Proof.
  intros Htype Hout. pose proof (outside_closed_kinds kind Hout) as Hne.
  unfold render. change FIELD_NAMES.TYPE with "type". rewrite Htype.
  cbv [bind is_string].
  rewrite !Hne by (cbv; auto 20). reflexivity.
Qed.

Lemma render_documented (v : JsVal) (b : Block) :
  represents v b -> render v = Ok (spec_render b).
Proof.
  destruct b as [kind runs|checked runs|language runs| |kind]; simpl.
  - intros (Htype & payload & Hpayload & Hruns).
    unfold render. change FIELD_NAMES.TYPE with "type". rewrite Htype.
    destruct kind; simpl in *; unfold prefixed;
      cbv [BLOCK_TYPES.PARAGRAPH BLOCK_TYPES.HEADING_1 BLOCK_TYPES.HEADING_2
           BLOCK_TYPES.HEADING_3 BLOCK_TYPES.BULLETED_LIST_ITEM
           BLOCK_TYPES.NUMBERED_LIST_ITEM BLOCK_TYPES.TOGGLE BLOCK_TYPES.QUOTE];
      rewrite Hpayload; simpl; rewrite (joined_runs_carries _ _ Hruns); reflexivity.
  - intros (Htype & payload & Hpayload & Hchecked & Hruns).
    unfold render. change FIELD_NAMES.TYPE with "type". rewrite Htype. simpl.
    cbv [BLOCK_TYPES.TO_DO FIELD_NAMES.CHECKED]. rewrite Hpayload. simpl.
    rewrite Hchecked. simpl. rewrite (joined_runs_carries _ _ Hruns).
    destruct checked; reflexivity.
  - intros (Htype & payload & Hpayload & Hlanguage & Hruns).
    unfold render. change FIELD_NAMES.TYPE with "type". rewrite Htype. simpl.
    cbv [BLOCK_TYPES.CODE FIELD_NAMES.LANGUAGE]. rewrite Hpayload. simpl.
    rewrite Hlanguage. simpl. rewrite (joined_runs_carries _ _ Hruns).
    reflexivity.
  - intros Htype.
    unfold render. change FIELD_NAMES.TYPE with "type". rewrite Htype. reflexivity.
  - intros (Htype & Hout). apply render_other; assumption.
Qed.

(** C1. For a block of a kind in the closed set that carries its documented
    payload, [render] returns the string of the formatting table: the run
    texts concatenated without separator, behind no prefix, ["# "], ["## "],
    ["### "], the bullet, the fixed ["1. "], a check mark or a circle chosen
    by the checked flag, the toggle mark or ["> "]; a code block is fenced
    with its language tag; a divider is ["---"]; and a block of any other
    kind renders as its kind between square brackets. *)
Theorem render_matches_table (v : JsVal) (b : Block) :
  represents v b -> render v = Ok (spec_render b).
Proof.
  apply render_documented.
Qed.

(** ** The normalizer on the documented property values *)

#[local] Arguments get : simpl never.
#[local] Arguments text_property : simpl never.
#[local] Arguments optional_get : simpl never.
#[local] Arguments optional_map : simpl never.
#[local] Arguments or_else : simpl never.
#[local] Arguments array_join : simpl never.

Lemma get_ok_not_nullish (v x : JsVal) (key : string) :
  get v key = Ok x -> is_nullish v = false.
Proof.
  destruct v; unfold get; simpl; intro H; try reflexivity; discriminate.
Qed.

Lemma or_else_string (s : string) : or_else (JStr s) (JStr "") = JStr s.
Proof.
  unfold or_else. simpl. destruct (String.eqb_spec s ""); simpl; congruence.
Qed.

Lemma or_else_nonempty (s : string) (fallback : JsVal) :
  s <> "" -> or_else (JStr s) fallback = JStr s.
Proof.
  intro H. unfold or_else. simpl.
  apply String.eqb_neq in H. rewrite H. reflexivity.
Qed.

Lemma mapM_members (key : string) (items : list JsVal) (texts : list string) :
  members_are key items texts ->
  mapM (fun item => get item key) items = Ok (map JStr texts).
Proof.
  intro H. apply (mapM_Forall2 (fun item => get item key) JStr). exact H.
Qed.

Lemma mapM_people (items : list JsVal) (persons : list Person) :
  Forall2 represents_person items persons ->
  mapM (fun p => name <- get p "name" ;;
                 if to_boolean name then Ok name else get p "id") items
  = Ok (map (fun p => JStr (person_label p)) persons).
Proof.
  intro H. apply (mapM_Forall2 _ (fun p => JStr (person_label p))).
  induction H as [|item p items persons [Hid Hname] _ IH]; constructor; [|exact IH].
  spell.
  unfold person_label. destruct (person_name p) as [name|].
  - destruct Hname as [Hne Hname]. rewrite Hname. simpl.
    apply String.eqb_neq in Hne. rewrite Hne. reflexivity.
  - destruct Hname as [Hname|Hname]; rewrite Hname; simpl; exact Hid.
Qed.

Lemma outside_property_kinds (kind : string) :
  ~ In kind property_kinds ->
  forall tag, In tag property_kinds -> String.eqb kind tag = false.
Proof.
  intros Hout tag Hin. apply String.eqb_neq. intro Heq. subst. contradiction.
Qed.

Lemma property_value_documented (v : JsVal) (p : Property) :
  represents_property v p -> property_value v = Ok (spec_normalize p).
Proof.
  destruct p as [kind runs|n|[name|]|names|[start|]|checked|kind text|persons|ids
                |kind|kind raw]; simpl.
  - intros (Htype & items & Hsub & Hruns).
    unfold property_value. spell. rewrite Htype.
    destruct kind; simpl in *; unfold text_property; spell;
      rewrite Hsub; simpl;
      rewrite (mapM_members _ _ _ Hruns); simpl;
      rewrite array_join_strings; simpl;
      rewrite or_else_string; reflexivity.
  - intros (Htype & Hsub).
    unfold property_value. spell. rewrite Htype.
    simpl. exact Hsub.
  - intros (Htype & Hne & option & Hsub & Hname).
    unfold property_value. spell. rewrite Htype.
    simpl. rewrite Hsub. simpl.
    unfold optional_get. rewrite (get_ok_not_nullish _ _ _ Hname).
    rewrite Hname. simpl.
    rewrite (or_else_nonempty _ _ Hne). reflexivity.
  - intros (Htype & Hsub).
    unfold property_value. spell. rewrite Htype.
    simpl. rewrite Hsub. reflexivity.
  - intros (Htype & items & Hsub & Hnames).
    unfold property_value. spell. rewrite Htype.
    simpl. rewrite Hsub. simpl.
    unfold optional_map. simpl.
    rewrite (mapM_members _ _ _ Hnames). reflexivity.
  - intros (Htype & Hne & date & Hsub & Hstart).
    unfold property_value. spell. rewrite Htype.
    simpl. rewrite Hsub. simpl.
    unfold optional_get. rewrite (get_ok_not_nullish _ _ _ Hstart).
    rewrite Hstart. simpl.
    rewrite (or_else_nonempty _ _ Hne). reflexivity.
  - intros (Htype & Hsub).
    unfold property_value. spell. rewrite Htype.
    simpl. rewrite Hsub. reflexivity.
  - intros (Htype & Hsub).
    unfold property_value. spell. rewrite Htype.
    simpl. exact Hsub.
  - intros (Htype & Hsub).
    unfold property_value. spell. rewrite Htype.
    destruct kind; simpl in *; exact Hsub.
  - intros (Htype & items & Hsub & Hpersons).
    unfold property_value. spell. rewrite Htype.
    simpl. rewrite Hsub. simpl.
    unfold optional_map. simpl.
    rewrite (mapM_people _ _ Hpersons). reflexivity.
  - intros (Htype & items & Hsub & Hids).
    unfold property_value. spell. rewrite Htype.
    simpl. rewrite Hsub. simpl.
    unfold optional_map. simpl.
    rewrite (mapM_members _ _ _ Hids). reflexivity.
  - intros (Hkind & Htype & Hsub).
    unfold property_value. spell. rewrite Htype.
    simpl in Hkind.
    repeat (destruct Hkind as [Hkind|Hkind];
            [subst kind; simpl; unfold text_property, optional_get, optional_map;
             rewrite ?Hsub; reflexivity|]).
    contradiction.
  - intros (Htype & Hout & ->).
    pose proof (outside_property_kinds kind Hout) as Hne.
    unfold property_value. spell. rewrite Htype.
    cbv [bind is_string].
    rewrite !Hne by (cbv; auto 20). reflexivity.
Qed.

(** ** The loop of [extractAllProperties] *)






Lemma extract_loop_outputs (todo : list (string * JsVal)) (outputs : list JsVal)
  (start : list (string * JsVal)) :
  Forall2 (fun entry out => property_value (snd entry) = Ok out) todo outputs ->
  extract_loop todo start = Ok (assign_all (combine (map fst todo) outputs) start).
Proof.
  intro H. revert start.
  induction H as [|[key value] out todo outputs Hout _ IH]; intro start; simpl.
  - reflexivity.
  - simpl in Hout. rewrite Hout. simpl. apply IH.
Qed.

Lemma modelled_outputs (fields : list (string * JsVal)) (props : list Property) :
  modelled fields props ->
  Forall2 (fun entry out => property_value (snd entry) = Ok out)
          fields (map spec_normalize props).
Proof.
  induction 1 as [|entry p fields props Hp _ IH]; simpl; constructor.
  - apply property_value_documented. exact Hp.
  - exact IH.
Qed.



Lemma extractAllProperties_modelled (page : JsVal) (fields : list (string * JsVal))
  (props : list Property) :
  get page "properties" = Ok (JObj fields) ->
  modelled fields props ->
  extractAllProperties page
  = Ok (JObj (assign_all (combine (map fst fields) (map spec_normalize props)) [])).
Proof.
  intros Hget Hmodel. unfold extractAllProperties. spell. rewrite Hget. simpl.
  rewrite (extract_loop_outputs _ _ _ (modelled_outputs _ _ Hmodel)). reflexivity.
Qed.


(** ** Where the renderer returns and where it throws *)

#[local] Arguments joined_runs : simpl never.
#[local] Arguments to_string : simpl never.

Lemma get_field (v : JsVal) (key : string) :
  is_nullish v = false -> get v key = Ok (field v key).
Proof.
  unfold field. destruct v; unfold get; simpl; intro H; try discriminate; try reflexivity.
  destruct (own_property fields key); reflexivity.
Qed.

Lemma get_nullish (v : JsVal) (key : string) :
  is_nullish v = true -> get v key = Throw (TypeError (ReadOfNullish key)).
Proof.
  destruct v; simpl; intro H; try discriminate; reflexivity.
Qed.













(** ** The pagination loop against scripted listings *)

Lemma absorb_listing (l : Listing) (acc : list JsVal) :
  well_listed l ->
  absorb (listing_response l) acc = Ok ((acc ++ listing_results l)%list, listing_cursor l).
Proof.
  intros [Hresults Hcursor]. unfold absorb. spell.
  rewrite Hresults. simpl. rewrite Hcursor. reflexivity.
Qed.

Lemma paginate_step_listing (l : Listing) (fuel : nat) (pageId : string)
  (cursor : JsVal) (acc : list JsVal) (retrieved searched : Result JsVal)
  (rest : list (Result JsVal)) (log : list (Request * Result JsVal)) :
  well_listed l ->
  paginate scripted (S fuel) pageId cursor acc
    {| client := script retrieved (Ok (listing_response l) :: rest) searched;
       calls := log |}
  = let w1 := {| client := script retrieved rest searched;
                 calls := (log ++ [(list_request pageId cursor,
                                    Ok (listing_response l))])%list |} in
    if to_boolean (listing_cursor l)
    then paginate scripted fuel pageId (listing_cursor l)
           (acc ++ listing_results l)%list w1
    else Some (Ok (acc ++ listing_results l)%list, w1).
Proof.
  intro Hl. simpl. unfold await. simpl.
  rewrite (absorb_listing l acc Hl). reflexivity.
Qed.

Lemma paginate_continues (front : list Listing) :
  Forall well_listed front ->
  Forall (fun l => to_boolean (listing_cursor l) = true) front ->
  forall (fuel : nat) (pageId : string) (cursor : JsVal) (acc : list JsVal)
         (retrieved searched : Result JsVal) (rest : list (Result JsVal))
         (log : list (Request * Result JsVal)),
    paginate scripted (length front + fuel) pageId cursor acc
      {| client := script retrieved (listed front ++ rest)%list searched;
         calls := log |}
    = paginate scripted fuel pageId (last_cursor cursor front)
        (acc ++ all_results front)%list
        {| client := script retrieved rest searched;
           calls := (log ++ listing_calls pageId cursor front)%list |}.
Proof.
  induction front as [|l front IH]; intros Hwell Hmore fuel pageId cursor acc
    retrieved searched rest log.
  - simpl. unfold all_results. simpl. rewrite !app_nil_r. reflexivity.
  - inversion Hwell as [|? ? Hl Hwell']; subst.
    inversion Hmore as [|? ? Hcursor Hmore']; subst.
    change (length (l :: front) + fuel) with (S (length front + fuel)).
    change (listed (l :: front) ++ rest)%list
      with (Ok (listing_response l) :: (listed front ++ rest))%list.
    rewrite (paginate_step_listing l _ _ _ _ _ _ _ _ Hl).
    cbv zeta. rewrite Hcursor. rewrite (IH Hwell' Hmore').
    unfold all_results. simpl. rewrite <- !app_assoc. reflexivity.
Qed.

Lemma listing_calls_app (pageId : string) (cursor : JsVal) (front back : list Listing) :
  listing_calls pageId cursor (front ++ back)
  = (listing_calls pageId cursor front
     ++ listing_calls pageId (last_cursor cursor front) back)%list.
Proof.
  revert cursor. induction front as [|l front IH]; intro cursor; simpl.
  - reflexivity.
  - f_equal. apply IH.
Qed.




Lemma all_results_app (front back : list Listing) :
  all_results (front ++ back) = (all_results front ++ all_results back)%list.
Proof.
  unfold all_results. rewrite map_app, concat_app. reflexivity.
Qed.

Lemma paginate_drains (front : list Listing) (final : Listing) (fuel : nat)
  (pageId : string) (retrieved searched : Result JsVal) (rest : list (Result JsVal))
  (log : list (Request * Result JsVal)) :
  Forall well_listed (front ++ [final]) ->
  Forall (fun l => to_boolean (listing_cursor l) = true) front ->
  to_boolean (listing_cursor final) = false ->
  length (front ++ [final]) <= fuel ->
  paginate scripted fuel pageId JUndefined []
    {| client := script retrieved (listed (front ++ [final]) ++ rest)%list searched;
       calls := log |}
  = Some (Ok (all_results (front ++ [final])),
          {| client := script retrieved rest searched;
             calls := (log ++ listing_calls pageId JUndefined (front ++ [final]))%list |}).
Proof.
  intros Hwell Hmore Hlast Hfuel.
  apply Forall_app in Hwell. destruct Hwell as [Hfront Hfinal].
  inversion Hfinal as [|? ? Hl _]; subst.
  rewrite length_app in Hfuel. simpl in Hfuel.
  replace fuel with (length front + S (fuel - length front - 1)) by lia.
  unfold listed. rewrite map_app, <- app_assoc. fold (listed front).
  rewrite (paginate_continues front Hfront Hmore).
  change (map (fun l => Ok (listing_response l)) [final] ++ rest)%list
    with (Ok (listing_response final) :: rest).
  rewrite (paginate_step_listing final _ _ _ _ _ _ _ _ Hl).
  cbv zeta. rewrite Hlast.
  rewrite listing_calls_app, all_results_app. simpl.
  unfold all_results at 3. simpl. rewrite app_nil_r, <- app_assoc. reflexivity.
Qed.


(** ** The calls a run makes, for any client *)

Section AnyClient.

Variable ClientState : Type.
Variable notion : Request -> ClientState -> Result JsVal * ClientState.

Lemma await_calls (request : Request) (w : World ClientState) :
  calls (snd (await notion request w))
  = (calls w ++ [(request, fst (await notion request w))])%list.
Proof.
  unfold await. destruct (notion request (client w)) as [outcome next]. reflexivity.
Qed.

Lemma paginate_calls (fuel : nat) (pageId : string) :
  forall (cursor : JsVal) (acc : list JsVal) (w w' : World ClientState)
         (r : Result (list JsVal)),
    paginate notion fuel pageId cursor acc w = Some (r, w') ->
    exists made,
      calls w' = (calls w ++ made)%list /\
      forall request e, In (request, Throw e) made -> r = Throw e.
Proof.
  induction fuel as [|fuel IH]; intros cursor acc w w' r H; simpl in H; [discriminate|].
  pose proof (await_calls (list_request pageId cursor) w) as Hlog.
  destruct (await notion (list_request pageId cursor) w) as [outcome w1].
  simpl in Hlog.
  destruct outcome as [response|e]; simpl in H.
  - destruct (absorb response acc) as [[acc' cursor']|e] eqn:Eabsorb.
    + destruct (to_boolean cursor').
      * destruct (IH _ _ _ _ _ H) as (made & Hmade & Hfail).
        exists ((list_request pageId cursor, Ok response) :: made). split.
        -- rewrite Hmade, Hlog, <- app_assoc. reflexivity.
        -- intros request e [Heq|Hin]; [discriminate|]. apply (Hfail _ _ Hin).
      * inversion H; subst.
        exists [(list_request pageId cursor, Ok response)]. split; [exact Hlog|].
        intros request e [Heq|[]]. discriminate.
    + inversion H; subst.
      exists [(list_request pageId cursor, Ok response)]. split; [exact Hlog|].
      intros request e' [Heq|[]]. discriminate.
  - inversion H; subst.
    exists [(list_request pageId cursor, Throw e)]. split; [exact Hlog|].
    intros request e' [Heq|[]]. inversion Heq. reflexivity.
Qed.

Lemma getPageContent_calls (fuel : nat) (pageId : string) (w w' : World ClientState)
  (r : Result PageData) :
  getPageContent notion fuel pageId w = Some (r, w') ->
  exists made,
    calls w' = (calls w ++ made)%list /\
    forall request message,
      In (request, Throw (Error message)) made ->
      r = Throw (Error ("Failed to get page content: " ++ message)).
Proof.
  unfold getPageContent. intro H.
  pose proof (await_calls (retrieve_request pageId) w) as Hlog.
  destruct (await notion (retrieve_request pageId) w) as [retrieved w1].
  simpl in Hlog.
  destruct retrieved as [page0|e].
  - destruct (paginate notion fuel pageId JUndefined [] w1) as [[fetched w2]|] eqn:Eloop;
      [|discriminate].
    inversion H; subst.
    destruct (paginate_calls _ _ _ _ _ _ _ Eloop) as (made & Hmade & Hfail).
    exists ((retrieve_request pageId, Ok page0) :: made). split.
    + rewrite Hmade, Hlog, <- app_assoc. reflexivity.
    + intros request message [Heq|Hin]; [discriminate|].
      rewrite (Hfail _ _ Hin). reflexivity.
  - inversion H; subst.
    exists [(retrieve_request pageId, Throw e)]. split; [exact Hlog|].
    intros request message [Heq|[]]. inversion Heq. reflexivity.
Qed.

Lemma getPageContent_wraps (fuel : nat) (pageId : string) (w w' : World ClientState)
  (e : JsError) :
  getPageContent notion fuel pageId w = Some (Throw e, w') ->
  exists cause, e = Error ("Failed to get page content: " ++ cause).
Proof.
  unfold getPageContent. intro H.
  destruct (await notion (retrieve_request pageId) w) as [retrieved w1].
  destruct retrieved as [page0|e0].
  - destruct (paginate notion fuel pageId JUndefined [] w1) as [[fetched w2]|];
      [|discriminate].
    inversion H as [[Hr Hw]]. unfold rethrow in Hr.
    match type of Hr with
    | match ?c with _ => _ end = _ => destruct c as [pd|e0]
    end; [discriminate|].
    inversion Hr. eexists. reflexivity.
  - inversion H. eexists. reflexivity.
Qed.

Lemma getPageContent_returns (fuel : nat) (pageId : string) (w w' : World ClientState)
  (pd : PageData) :
  getPageContent notion fuel pageId w = Some (Ok pd, w') ->
  exists w1 lines,
    await notion (retrieve_request pageId) w = (Ok (page pd), w1) /\
    paginate notion fuel pageId JUndefined [] w1 = Some (Ok (blocks pd), w') /\
    mapM render (blocks pd) = Ok lines /\
    content pd
    = String.concat MARKDOWN_SYMBOLS.DOUBLE_NEWLINE
        (filter (fun text => Nat.ltb 0 (String.length text)) lines) /\
    extractAllProperties (page pd) = Ok (properties pd).
Proof.
  unfold getPageContent. intro H.
  destruct (await notion (retrieve_request pageId) w) as [retrieved w1].
  destruct retrieved as [page0|e0]; [|discriminate].
  destruct (paginate notion fuel pageId JUndefined [] w1) as [[fetched w2]|] eqn:Eloop;
    [|discriminate].
  inversion H as [[Hr Hw]]. subst w2. clear H.
  destruct fetched as [fetched|e]; [|discriminate].
  simpl in Hr. unfold rendered_lines in Hr.
  destruct (mapM render fetched) as [lines|e] eqn:Elines; [|discriminate].
  simpl in Hr.
  destruct (extractAllProperties page0) as [props|e] eqn:Eprops; [|discriminate].
  simpl in Hr. inversion Hr; subst. simpl.
  exists w1, lines. repeat split; reflexivity || assumption.
Qed.

End AnyClient.

(** ** Page content *)


Lemma mapM_render_documented (raw : list JsVal) (typed : list Block) :
  Forall2 represents raw typed -> mapM render raw = Ok (map spec_render typed).
Proof.
  intro H. apply (mapM_Forall2 render spec_render).
  induction H as [|v b raw typed Hv _ IH]; constructor; [|exact IH].
  apply render_documented. exact Hv.
Qed.


(** ** The page tool *)

Lemma extractAllProperties_object (page0 props : JsVal) :
  extractAllProperties page0 = Ok props -> exists out, props = JObj out.
Proof.
  unfold extractAllProperties. intro H.
  destruct (get page0 FIELD_NAMES.PROPERTIES) as [raw|e]; [|discriminate].
  simpl in H.
  destruct (extract_loop (entries (or_else raw (JObj []))) []) as [out|e];
    [|discriminate].
  inversion H. exists out. reflexivity.
Qed.

Lemma extractAllProperties_page_present (page0 props : JsVal) :
  extractAllProperties page0 = Ok props -> is_nullish page0 = false.
Proof.
  unfold extractAllProperties. intro H.
  destruct (get page0 FIELD_NAMES.PROPERTIES) as [raw|e] eqn:Eraw; [|discriminate].
  apply (get_ok_not_nullish _ _ _ Eraw).
Qed.

Lemma page_payload_total_blocks (page_id content0 : string) (url out_props : JsVal)
  (n : Number) (out : list (string * JsVal)) :
  out_props = JObj out ->
  get (json_view (JObj [(FIELD_NAMES.PAGE_ID, JStr page_id);
                        (FIELD_NAMES.URL, url);
                        (FIELD_NAMES.PROPERTIES, out_props);
                        ("content", JStr content0);
                        ("total_blocks", JNum n)])) "total_blocks"
  = Ok (JNum n).
Proof.
  intros ->. destruct url; reflexivity.
Qed.

(** C7. When the page tool succeeds, the member [total_blocks] of its
    payload is the length of the block sequence that the pagination loop
    fetched, whatever those blocks render to. *)
Theorem total_blocks_counts_fetched_blocks (ClientState : Type)
  (notion : Request -> ClientState -> Result JsVal * ClientState)
  (fuel : nat) (page_id : string) (w w' : World ClientState) (payload : JsVal) :
  get_notion_page notion fuel page_id w = Some (Ok payload, w') ->
  exists pd w1,
    getPageContent notion fuel page_id w = Some (Ok pd, w') /\
    paginate notion fuel page_id JUndefined [] w1 = Some (Ok (blocks pd), w') /\
    get payload "total_blocks" = Ok (JNum (number_of_length (length (blocks pd)))).
Proof.
  unfold get_notion_page. intro H.
  destruct (getPageContent notion fuel page_id w) as [[outcome w2]|] eqn:Erun;
    [|discriminate].
  inversion H as [[Hr Hw]]. subst w2. clear H.
  destruct outcome as [pd|e]; [|discriminate].
  destruct (getPageContent_returns _ _ _ _ _ _ _ Erun)
    as (w1 & lines & _ & Hloop & _ & _ & Hprops).
  simpl in Hr.
  rewrite (get_field _ _ (extractAllProperties_page_present _ _ Hprops)) in Hr.
  simpl in Hr. inversion Hr as [Hpayload].
  destruct (extractAllProperties_object _ _ Hprops) as [out Hout].
  exists pd, w1. split; [reflexivity|]. split; [exact Hloop|].
  apply (page_payload_total_blocks _ _ _ _ _ out Hout).
Qed.

Lemma get_notion_page_rethrows (ClientState : Type)
  (notion : Request -> ClientState -> Result JsVal * ClientState)
  (fuel : nat) (page_id : string) (w w' : World ClientState) (e : JsError) :
  getPageContent notion fuel page_id w = Some (Throw e, w') ->
  get_notion_page notion fuel page_id w
  = Some (Throw (Error ("Failed to get page: " ++ error_message e)), w').
Proof.
  intro H. unfold get_notion_page. rewrite H. reflexivity.
Qed.

(** C10. When [getPageContent] fails, its error already carries the prefix
    of the retrieval error, and the page tool wraps that error once more:
    the message at the tool boundary is the two fixed prefixes followed by
    the message of the cause.  When the cause is a failed call to the client
    with message [m], the message is the two prefixes followed by [m]. *)
Theorem page_tool_stacks_two_prefixes (ClientState : Type)
  (notion : Request -> ClientState -> Result JsVal * ClientState)
  (fuel : nat) (page_id : string) (w w' : World ClientState) (e : JsError) :
  getPageContent notion fuel page_id w = Some (Throw e, w') ->
  (exists cause,
     e = Error ("Failed to get page content: " ++ cause) /\
     get_notion_page notion fuel page_id w
     = Some (Throw (Error ("Failed to get page: Failed to get page content: " ++ cause)),
             w')) /\
  (forall made request m,
     calls w' = (calls w ++ made)%list ->
     In (request, Throw (Error m)) made ->
     get_notion_page notion fuel page_id w
     = Some (Throw (Error ("Failed to get page: Failed to get page content: " ++ m)),
             w')).
Proof.
  intro H. split.
  - destruct (getPageContent_wraps _ _ _ _ _ _ _ H) as [cause Hcause].
    exists cause. split; [exact Hcause|].
    rewrite (get_notion_page_rethrows _ _ _ _ _ _ _ H). rewrite Hcause. reflexivity.
  - intros made request m Hmade Hin.
    destruct (getPageContent_calls _ _ _ _ _ _ _ H) as (made' & Hmade' & Hfail).
    rewrite Hmade in Hmade'. apply app_inv_head in Hmade'. subst made'.
    pose proof (Hfail _ _ Hin) as Hr. inversion Hr as [He].
    rewrite (get_notion_page_rethrows _ _ _ _ _ _ _ H). rewrite He. reflexivity.
Qed.

(** ** Failures of the retrieval *)

Lemma getPageContent_retrieve_fails (m : string) (listings : list (Result JsVal))
  (searched : Result JsVal) (fuel : nat) (pageId : string)
  (log : list (Request * Result JsVal)) :
  getPageContent scripted fuel pageId
    {| client := script (Throw (Error m)) listings searched; calls := log |}
  = Some (Throw (Error ("Failed to get page content: " ++ m)),
          {| client := script (Throw (Error m)) listings searched;
             calls := (log ++ [(retrieve_request pageId, Throw (Error m))])%list |}).
Proof.
  reflexivity.
Qed.

Lemma paginate_listing_fails (front : list Listing) (e : JsError) (fuel : nat)
  (pageId : string) (cursor : JsVal) (acc : list JsVal)
  (retrieved searched : Result JsVal) (rest : list (Result JsVal))
  (log : list (Request * Result JsVal)) :
  Forall well_listed front ->
  Forall (fun l => to_boolean (listing_cursor l) = true) front ->
  length front < fuel ->
  paginate scripted fuel pageId cursor acc
    {| client := script retrieved (listed front ++ Throw e :: rest)%list searched;
       calls := log |}
  = Some (Throw e,
          {| client := script retrieved rest searched;
             calls := (log ++ listing_calls pageId cursor front
                       ++ [(list_request pageId (last_cursor cursor front), Throw e)])%list |}).
Proof.
  intros Hwell Hmore Hfuel.
  replace fuel with (length front + S (fuel - length front - 1)) by lia.
  rewrite (paginate_continues front Hwell Hmore).
  simpl. unfold await. simpl. rewrite <- app_assoc. reflexivity.
Qed.

Lemma getPageContent_listing_fails (page0 : JsVal) (front : list Listing) (m : string)
  (rest : list (Result JsVal)) (searched : Result JsVal) (fuel : nat)
  (pageId : string) (log : list (Request * Result JsVal)) :
  Forall well_listed front ->
  Forall (fun l => to_boolean (listing_cursor l) = true) front ->
  length front < fuel ->
  getPageContent scripted fuel pageId
    {| client := script (Ok page0) (listed front ++ Throw (Error m) :: rest)%list searched;
       calls := log |}
  = Some (Throw (Error ("Failed to get page content: " ++ m)),
          {| client := script (Ok page0) rest searched;
             calls := (log ++ (retrieve_request pageId, Ok page0)
                       :: listing_calls pageId JUndefined front
                       ++ [(list_request pageId (last_cursor JUndefined front),
                            Throw (Error m))])%list |}).
Proof.
  intros Hwell Hmore Hfuel. unfold getPageContent, await at 1. simpl.
  rewrite (paginate_listing_fails front (Error m) fuel pageId JUndefined []
             (Ok page0) searched rest _ Hwell Hmore Hfuel).
  simpl. rewrite <- app_assoc. reflexivity.
Qed.

(** C9. Whenever the page retrieval or a block-listing call made by
    [getPageContent] fails with message [m], [getPageContent] fails with
    the message ["Failed to get page content: "] followed by [m], and
    returns nothing else.  It does fail so: when the retrieval fails, and
    when a listing call fails after any number of listings that each asked
    for more, given fuel for that many turns and one. *)
Theorem retrieval_failure_is_wrapped :
  (forall (ClientState : Type)
          (notion : Request -> ClientState -> Result JsVal * ClientState)
          (fuel : nat) (pageId : string) (w w' : World ClientState)
          (r : Result PageData),
     getPageContent notion fuel pageId w = Some (r, w') ->
     exists made,
       calls w' = (calls w ++ made)%list /\
       forall request m,
         In (request, Throw (Error m)) made ->
         r = Throw (Error ("Failed to get page content: " ++ m))) /\
  (forall m listings searched fuel pageId log,
     option_map fst
       (getPageContent scripted fuel pageId
          {| client := script (Throw (Error m)) listings searched; calls := log |})
     = Some (Throw (Error ("Failed to get page content: " ++ m)))) /\
  (forall page0 front m rest searched fuel pageId log,
     Forall well_listed front ->
     Forall (fun l => to_boolean (listing_cursor l) = true) front ->
     length front < fuel ->
     option_map fst
       (getPageContent scripted fuel pageId
          {| client := script (Ok page0)
                         (listed front ++ Throw (Error m) :: rest)%list searched;
             calls := log |})
     = Some (Throw (Error ("Failed to get page content: " ++ m)))).
Proof.
  split; [|split].
  - intros. eapply getPageContent_calls. eassumption.
  - intros. rewrite getPageContent_retrieve_fails. reflexivity.
  - intros page0 front m rest searched fuel pageId log Hwell Hmore Hfuel.
    rewrite (getPageContent_listing_fails _ _ _ _ _ _ _ _ Hwell Hmore Hfuel).
    reflexivity.
Qed.

(** ** The search tool *)







(** ** Keys of the output *)

Lemma put_fresh (fields : list (string * JsVal)) (key : string) (v : JsVal) :
  ~ In key (map fst fields) -> put fields key v = (fields ++ [(key, v)])%list.
Proof.
  induction fields as [|[k x] rest IH]; simpl; intro Hfresh; [reflexivity|].
  destruct (String.eqb_spec k key) as [Heq|Hne].
  - exfalso. apply Hfresh. left. exact Heq.
  - f_equal. apply IH. intro Hin. apply Hfresh. right. exact Hin.
Qed.

Lemma assign_all_keys (pairs start : list (string * JsVal)) :
  NoDup (map fst start ++ map fst pairs) ->
  ~ In "__proto__" (map fst pairs) ->
  assign_all pairs start = (start ++ pairs)%list.
Proof.
  revert start. induction pairs as [|[k x] rest IH]; intros start Hnd Hproto.
  - simpl. rewrite app_nil_r. reflexivity.
  - unfold assign_all. simpl. fold (assign_all rest (assign start k x)).
    assert (k <> "__proto__") as Hk.
    { intro Heq. apply Hproto. left. exact Heq. }
    unfold assign. apply String.eqb_neq in Hk. rewrite Hk.
    simpl in Hnd. pose proof (NoDup_remove_2 _ _ _ Hnd) as Hfresh.
    rewrite put_fresh by (intro Hin; apply Hfresh; apply in_or_app; left; exact Hin).
    rewrite IH.
    + rewrite <- app_assoc. reflexivity.
    + rewrite map_app. simpl. rewrite <- app_assoc. exact Hnd.
    + intro Hin. apply Hproto. right. exact Hin.
Qed.

(** On a property map that has no key [__proto__], the output has the keys
    of the input, in order, each with its documented value. *)
Lemma extractAllProperties_keeps_keys (page0 : JsVal) (fields : list (string * JsVal))
  (props : list Property) :
  get page0 "properties" = Ok (JObj fields) ->
  NoDup (map fst fields) ->
  ~ In "__proto__" (map fst fields) ->
  modelled fields props ->
  extractAllProperties page0
  = Ok (JObj (combine (map fst fields) (map spec_normalize props))).
Proof.
  intros Hget Hnd Hproto Hmodel.
  rewrite (extractAllProperties_modelled _ _ _ Hget Hmodel). do 2 f_equal.
  assert (length (map fst fields) = length (map spec_normalize props)) as Hlen.
  { rewrite !length_map. apply (Forall2_length Hmodel). }
  assert (map fst (combine (map fst fields) (map spec_normalize props)) = map fst fields)
    as Hkeys.
  { revert Hlen. generalize (map spec_normalize props). generalize (map fst fields).
    induction l as [|a l IHl]; intros [|b l0] Hl; simpl in *; try discriminate;
      [reflexivity|]. f_equal. apply IHl. congruence. }
  apply assign_all_keys; simpl; rewrite Hkeys; assumption.
Qed.

(** * Further properties of the code *)

(** ** Which blocks can vanish from the content *)

Lemma append_empty (a b : string) : a ++ b = "" -> a = "".
Proof.
  destruct a; simpl; [reflexivity|discriminate].
Qed.

Lemma prefixed_line_nonempty (symbol : string) (block : JsVal) (kind line : string) :
  symbol <> "" -> prefixed symbol block kind = Ok line -> line <> "".
Proof.
  intros Hsymbol H Hline. unfold prefixed in H.
  destruct (get block kind) as [payload|e]; [|discriminate]. simpl in H.
  destruct (joined_runs payload) as [text|e]; [|discriminate]. simpl in H.
  inversion H as [Heq]. rewrite <- Heq in Hline.
  apply Hsymbol. apply (append_empty _ _ Hline).
Qed.

Lemma render_empty_kind (block : JsVal) :
  render block = Ok "" -> get block "type" = Ok (JStr "paragraph").
Proof.
  unfold render. spell.
  destruct (get block "type") as [type|e] eqn:Etype; [|discriminate].
  simpl.
  assert ((kind <- to_string type ;; Ok ("[" ++ kind ++ "]")) <> Ok "") as Hother.
  { intro H. destruct (to_string type); simpl in H; discriminate. }
  destruct type as [| | | |s| |]; simpl;
    try (intro H; exfalso; apply (Hother H)).
  destruct (String.eqb_spec s "paragraph") as [Heq|_]; [subst; reflexivity|].
  repeat match goal with
         | |- (if String.eqb ?a ?b then _ else _) = _ -> _ =>
             destruct (String.eqb a b)
         end;
    intro H; exfalso;
    try (refine (prefixed_line_nonempty _ _ _ _ _ H eq_refl); discriminate);
    try (apply (Hother H)).
  - destruct (get block "to_do") as [payload|e]; [|discriminate]. simpl in H.
    destruct (get payload "checked") as [flag|e]; [|discriminate]. simpl in H.
    destruct (joined_runs payload) as [text|e]; [|discriminate]. simpl in H.
    destruct (to_boolean flag); discriminate.
  - destruct (get block "code") as [payload|e]; [|discriminate]. simpl in H.
    destruct (get payload "language") as [language|e]; [|discriminate]. simpl in H.
    destruct (to_string language) as [tag|e]; [|discriminate]. simpl in H.
    destruct (joined_runs payload) as [text|e]; discriminate.
  - discriminate.
Qed.

(** X1. Only a paragraph can render to the empty string: every other arm
    of the renderer starts its line with a symbol, so a block of any other
    kind, supported or not, survives the filter on empty lines. *)
Theorem render_empty_is_paragraph (block : JsVal) :
  render block = Ok "" -> get block "type" = Ok (JStr "paragraph").
Proof.
  apply render_empty_kind.
Qed.

(** ** Rendering and concatenation *)

Lemma mapM_app {A B : Type} (f : A -> Result B) (xs ys : list A) :
  mapM f (xs ++ ys)
  = (us <- mapM f xs ;; vs <- mapM f ys ;; Ok (us ++ vs)%list).
Proof.
  induction xs as [|x xs IH]; simpl.
  - destruct (mapM f ys); reflexivity.
  - destruct (f x) as [y|e]; simpl; [|reflexivity].
    rewrite IH. destruct (mapM f xs) as [us|e]; simpl; [|reflexivity].
    destruct (mapM f ys); reflexivity.
Qed.

(** X2. The lines of a block sequence put together from two parts are the
    lines of the first part followed by the lines of the second; when a
    part fails to render, the whole fails with the error of the first part
    that fails.  So the content does not depend on how the listing was
    split into pages. *)
Theorem rendered_lines_app (front back : list JsVal) :
  rendered_lines (front ++ back)
  = (first <- rendered_lines front ;;
     second <- rendered_lines back ;;
     Ok (first ++ second)%list).
Proof.
  unfold rendered_lines. rewrite mapM_app.
  destruct (mapM render front) as [us|e]; simpl; [|reflexivity].
  destruct (mapM render back) as [vs|e]; simpl; [|reflexivity].
  rewrite filter_app. reflexivity.
Qed.

(** ** A block or a result that cannot be transformed *)

Lemma mapM_first_failure {A B : Type} (f : A -> Result B) (pre post : list A)
  (x : A) (ys : list B) (e : JsError) :
  mapM f pre = Ok ys -> f x = Throw e -> mapM f (pre ++ x :: post) = Throw e.
Proof.
  intros Hpre Hx. rewrite mapM_app, Hpre. simpl. rewrite Hx. reflexivity.
Qed.

(** X3. One block on which the renderer throws fails the whole page: when
    the retrieval and every listing succeeded and the fetched sequence holds
    a block whose rendering throws, after blocks that render, then
    [getPageContent] throws the retrieval error carrying the message of that
    block's error, and returns no content for the other blocks. *)
Theorem unrenderable_block_fails_page (ClientState : Type)
  (notion : Request -> ClientState -> Result JsVal * ClientState)
  (fuel : nat) (pageId : string) (w w1 w2 : World ClientState) (page0 : JsVal)
  (pre post : list JsVal) (b : JsVal) (lines : list string) (e : JsError) :
  await notion (retrieve_request pageId) w = (Ok page0, w1) ->
  paginate notion fuel pageId JUndefined [] w1 = Some (Ok (pre ++ b :: post)%list, w2) ->
  mapM render pre = Ok lines ->
  render b = Throw e ->
  getPageContent notion fuel pageId w
  = Some (Throw (Error ("Failed to get page content: " ++ error_message e)), w2).
Proof.
  intros Hretrieve Hloop Hpre Hb. unfold getPageContent.
  rewrite Hretrieve, Hloop. simpl. unfold rendered_lines.
  rewrite (mapM_first_failure render pre post b lines e Hpre Hb). reflexivity.
Qed.

(** ** When the content is empty *)

Lemma nonempty_length (s : string) :
  Nat.ltb 0 (String.length s) = false <-> s = "".
Proof.
  destruct s; simpl; split; intro H; try reflexivity; discriminate.
Qed.

Lemma concat_empty (sep : string) (lines : list string) :
  Forall (fun text => text <> "") lines ->
  String.concat sep lines = "" -> lines = [].
Proof.
  intros Hall H. destruct lines as [|x rest]; [reflexivity|].
  inversion Hall as [|? ? Hx _]; subst. exfalso. apply Hx.
  destruct rest as [|y rest]; simpl in H; [exact H|].
  apply (append_empty _ _ H).
Qed.

Lemma filter_nonempty_nil (lines : list string) :
  filter (fun text => Nat.ltb 0 (String.length text)) lines = [] <->
  Forall (fun text => text = "") lines.
Proof.
  induction lines as [|x rest IH]; simpl.
  - split; intro; constructor.
  - destruct (Nat.ltb 0 (String.length x)) eqn:E.
    + split; intro H; [discriminate|].
      inversion H as [|? ? Hx _]; subst. simpl in E. discriminate.
    + apply nonempty_length in E. split; intro H.
      * constructor; [exact E|]. apply IH. exact H.
      * inversion H; subst. apply IH. assumption.
Qed.

Lemma mapM_all_equal {A B : Type} (f : A -> Result B) (xs : list A) (ys : list B)
  (y : B) :
  mapM f xs = Ok ys -> (Forall (fun z => z = y) ys <-> Forall (fun x => f x = Ok y) xs).
Proof.
  revert ys. induction xs as [|x xs IH]; intros ys H; simpl in H.
  - inversion H. split; intro; constructor.
  - destruct (f x) as [z|e] eqn:Ex; simpl in H; [|discriminate].
    destruct (mapM f xs) as [zs|e]; simpl in H; [|discriminate].
    inversion H; subst.
    split; intro Hall; inversion Hall; subst; constructor;
      try congruence; apply (IH zs eq_refl); assumption.
Qed.

(** X4. The content of a page is the empty string exactly when every
    fetched block rendered to the empty string, hence (by the arms of the
    renderer) when the page holds nothing but paragraphs without text; the
    blocks are counted all the same. *)
Theorem content_empty_iff_blank (ClientState : Type)
  (notion : Request -> ClientState -> Result JsVal * ClientState)
  (fuel : nat) (pageId : string) (w w' : World ClientState) (pd : PageData) :
  getPageContent notion fuel pageId w = Some (Ok pd, w') ->
  (content pd = "" <-> Forall (fun block => render block = Ok "") (blocks pd)) /\
  (content pd = "" ->
   Forall (fun block => get block "type" = Ok (JStr "paragraph")) (blocks pd)).
Proof.
  intro H.
  destruct (getPageContent_returns _ _ _ _ _ _ _ H)
    as (w1 & lines & _ & _ & Hlines & Hcontent & _).
  assert (content pd = "" <-> Forall (fun block => render block = Ok "") (blocks pd))
    as Hiff.
  { rewrite Hcontent, <- (mapM_all_equal render _ _ "" Hlines), <- filter_nonempty_nil.
    split; intro Hempty.
    - apply (concat_empty MARKDOWN_SYMBOLS.DOUBLE_NEWLINE); [|exact Hempty].
      apply Forall_forall. intros text Hin. apply filter_In in Hin.
      destruct Hin as [_ Hlen]. intro Heq. subst text. discriminate.
    - rewrite Hempty. reflexivity. }
  split; [exact Hiff|].
  intro Hempty. apply Hiff in Hempty.
  apply Forall_forall. intros block Hin.
  apply render_empty_kind.
  apply (proj1 (Forall_forall _ _) Hempty block Hin).
Qed.

(** ** The order of the calls, for any client *)




(** ** Failures of the search tool *)

(** X6. Every failure of the search tool is an error whose message starts
    with ["Failed to search Notion: "]; when the search call itself fails
    with message [m], the message is that prefix followed by [m], wrapped
    once, and the call is the only one made. *)
Theorem search_failure_is_wrapped (ClientState : Type)
  (notion : Request -> ClientState -> Result JsVal * ClientState)
  (query : string) (w : World ClientState) :
  (forall e,
     fst (search_notion notion query w) = Throw e ->
     exists cause, e = Error ("Failed to search Notion: " ++ cause)) /\
  (forall m next,
     notion (search_request query) (client w) = (Throw (Error m), next) ->
     search_notion notion query w
     = (Throw (Error ("Failed to search Notion: " ++ m)),
        {| client := next;
           calls := (calls w ++ [(search_request query, Throw (Error m))])%list |})).
Proof.
  split.
  - intros e H. unfold search_notion in H.
    destruct (await notion (search_request query) w) as [outcome w1].
    simpl in H. unfold rethrow in H.
    match type of H with
    | match ?c with _ => _ end = _ => destruct c as [payload|e0]
    end; [discriminate|].
    inversion H. eexists. reflexivity.
  - intros m next Hcall. unfold search_notion, await. rewrite Hcall. reflexivity.
Qed.


(** ** Edges of the normalizer *)

(** X8. A page object without a property map, or with one that is falsy,
    normalizes to the empty object; a page that is [null] or [undefined]
    makes the normalizer throw on the read of [properties]. *)
Theorem extractAllProperties_without_map :
  (forall page0 raw,
     get page0 "properties" = Ok raw -> to_boolean raw = false ->
     extractAllProperties page0 = Ok (JObj [])) /\
  (forall page0,
     is_nullish page0 = true ->
     extractAllProperties page0 = Throw (TypeError (ReadOfNullish "properties"))).
Proof.
  split.
  - intros page0 raw Hget Hfalsy. unfold extractAllProperties, or_else. spell.
    rewrite Hget. simpl. rewrite Hfalsy. reflexivity.
  - intros page0 Hnull. unfold extractAllProperties. spell.
    rewrite (get_nullish _ _ Hnull). reflexivity.
Qed.

Lemma extract_loop_app (front back acc : list (string * JsVal)) :
  extract_loop (front ++ back) acc
  = (mid <- extract_loop front acc ;; extract_loop back mid).
Proof.
  revert acc. induction front as [|[key value] front IH]; intro acc; simpl.
  - reflexivity.
  - destruct (property_value value) as [v|e]; simpl; [apply IH|reflexivity].
Qed.

(** X9. One property value that cannot be normalized fails the whole map:
    when the values before it normalize and it throws, the normalizer throws
    its error and returns nothing for the other keys.  A value that is
    [null] is such a value: it throws on the read of [type]. *)
Theorem extractAllProperties_fails_on_bad_value (page0 : JsVal)
  (pre post : list (string * JsVal)) (key : string) (v : JsVal)
  (outs : list JsVal) (e : JsError) :
  get page0 "properties" = Ok (JObj (pre ++ (key, v) :: post)) ->
  Forall2 (fun entry out => property_value (snd entry) = Ok out) pre outs ->
  property_value v = Throw e ->
  extractAllProperties page0 = Throw e /\
  (is_nullish v = true -> e = TypeError (ReadOfNullish "type")).
Proof.
  intros Hget Hpre Hv. split.
  - unfold extractAllProperties. spell. rewrite Hget. simpl.
    rewrite extract_loop_app, (extract_loop_outputs _ _ _ Hpre). simpl.
    rewrite Hv. reflexivity.
  - intro Hnull. unfold property_value in Hv. spell.
    rewrite (get_nullish _ _ Hnull) in Hv. inversion Hv. reflexivity.
Qed.

(** ** The keys of the normalized map *)

Lemma put_present_keys (fields : list (string * JsVal)) (key : string) (v : JsVal) :
  In key (map fst fields) -> map fst (put fields key v) = map fst fields.
Proof.
  induction fields as [|[k x] rest IH]; simpl; intro Hin; [contradiction|].
  destruct (String.eqb_spec k key) as [Heq|Hne]; [reflexivity|].
  simpl. f_equal. apply IH. destruct Hin as [Heq|Hin]; [contradiction|exact Hin].
Qed.

Lemma assign_keys (fields : list (string * JsVal)) (key : string) (v : JsVal) :
  NoDup (map fst fields) ->
  NoDup (map fst (assign fields key v)) /\
  forall k, In k (map fst (assign fields key v))
            <-> In k (map fst fields) \/ (k = key /\ k <> "__proto__").
Proof.
  intro Hnd. unfold assign.
  destruct (String.eqb_spec key "__proto__") as [Hproto|Hother].
  - split; [exact Hnd|]. intro k. split; [auto|].
    intros [Hin|[Heq Hne]]; [exact Hin|]. subst. contradiction.
  - destruct (in_dec string_dec key (map fst fields)) as [Hin|Hfresh].
    + rewrite (put_present_keys _ _ _ Hin). split; [exact Hnd|].
      intro k. split; [auto|]. intros [Hk|[Heq _]]; [exact Hk|]. subst. exact Hin.
    + rewrite (put_fresh _ _ _ Hfresh), map_app. simpl. split.
      * apply NoDup_app; [exact Hnd|repeat constructor; simpl; tauto|].
        intros k Hk [Heq|[]]. subst. contradiction.
      * intro k. rewrite in_app_iff. simpl. split.
        -- intros [Hk|[Heq|[]]]; [auto|]. right. subst. auto.
        -- intros [Hk|[Heq _]]; [auto|]. right. left. congruence.
Qed.

Lemma extract_loop_keys (todo : list (string * JsVal)) :
  forall acc out,
    extract_loop todo acc = Ok out ->
    NoDup (map fst acc) ->
    NoDup (map fst out) /\
    forall k, In k (map fst out)
              <-> In k (map fst acc) \/ (In k (map fst todo) /\ k <> "__proto__").
Proof.
  induction todo as [|[key value] todo IH]; intros acc out H Hnd; simpl in H.
  - inversion H; subst. split; [exact Hnd|]. intro k. simpl. tauto.
  - destruct (property_value value) as [v|e]; simpl in H; [|discriminate].
    destruct (assign_keys acc key v Hnd) as [Hnd' Hkeys].
    destruct (IH _ _ H Hnd') as [Hout Hiff]. split; [exact Hout|].
    intro k. rewrite Hiff, Hkeys. simpl. intuition congruence.
Qed.

(** X10. Whatever the values are, when the normalizer returns, the keys of
    its output are pairwise distinct and are exactly the keys of the input
    map other than [__proto__]: it adds no key, and it keeps every other
    key. *)
Theorem extractAllProperties_keys (page0 : JsVal) (fields out : list (string * JsVal)) :
  get page0 "properties" = Ok (JObj fields) ->
  extractAllProperties page0 = Ok (JObj out) ->
  NoDup (map fst out) /\
  forall k, In k (map fst out) <-> In k (map fst fields) /\ k <> "__proto__".
Proof.
  intros Hget H. unfold extractAllProperties in H. spell. rewrite Hget in H.
  simpl in H.
  change (or_else (JObj fields) (JObj [])) with (JObj fields) in H. simpl in H.
  destruct (extract_loop fields []) as [out'|e] eqn:Eloop; [|discriminate].
  inversion H; subst.
  destruct (extract_loop_keys _ _ _ Eloop (NoDup_nil _)) as [Hnd Hiff].
  split; [exact Hnd|]. intro k. rewrite Hiff. simpl. tauto.
Qed.

(** ** The shape of what the normalizer returns *)

Lemma text_property_string (value : JsVal) (kind : string) (r : JsVal) :
  text_property value kind = Ok r -> exists s, r = JStr s.
Proof.
  unfold text_property. intro H.
  destruct (get value kind) as [runs|e]; [|discriminate]. simpl in H.
  destruct (is_nullish runs).
  - simpl in H. inversion H. exists "". reflexivity.
  - destruct (call_map runs (fun t => get t FIELD_NAMES.PLAIN_TEXT)) as [texts|e];
      [|discriminate]. simpl in H.
    destruct (array_join "" texts) as [s|e]; [|discriminate]. simpl in H.
    inversion H. rewrite or_else_string. exists s. reflexivity.
Qed.

Lemma optional_map_array (value : JsVal) (kind : string) (f : JsVal -> Result JsVal)
  (r : JsVal) :
  (sub <- get value kind ;; names <- optional_map sub f ;; Ok (or_else names (JArr [])))
  = Ok r ->
  exists items,
    r = JArr items /\
    forall xs, get value kind = Ok (JArr xs) -> length items = length xs.
Proof.
  intro H. destruct (get value kind) as [sub|e]; [|discriminate]. simpl in H.
  unfold optional_map in H. destruct sub as [| | | | |xs|]; simpl in H;
    try discriminate;
    try (inversion H; exists []; split; [reflexivity|]; intros xs Hxs; discriminate).
  destruct (mapM f xs) as [items|e] eqn:Emap; [|discriminate]. simpl in H.
  inversion H. exists items. split; [reflexivity|].
  intros xs' Hxs. inversion Hxs; subst. apply (mapM_length _ _ _ Emap).
Qed.

Lemma or_else_defined (name fallback : JsVal) :
  fallback <> JUndefined -> or_else name fallback <> JUndefined.
Proof.
  intro Hf. unfold or_else. destruct name; simpl; try exact Hf; try discriminate.
  - destruct b; [discriminate|exact Hf].
  - destruct (number_to_boolean n); [discriminate|exact Hf].
  - destruct (negb (String.eqb s "")); [discriminate|exact Hf].
Qed.

(** X11. Whatever a property value holds, when its normalization returns:
    a [title] or [rich_text] gives a string; a [multi_select], [people] or
    [relation] gives an array, with one element per element of the member
    when that is an array; a [select] or [date] never gives [undefined]. *)
Theorem normalized_value_shape (value r : JsVal) :
  property_value value = Ok r ->
  (forall kind, In kind ["title"; "rich_text"] ->
                get value "type" = Ok (JStr kind) -> exists s, r = JStr s) /\
  (forall kind, In kind ["multi_select"; "people"; "relation"] ->
                get value "type" = Ok (JStr kind) ->
                exists items,
                  r = JArr items /\
                  forall xs, get value kind = Ok (JArr xs) -> length items = length xs) /\
  (forall kind, In kind ["select"; "date"] ->
                get value "type" = Ok (JStr kind) -> r <> JUndefined).
Proof.
  intro H. unfold property_value in H. spell. split; [|split].
  - intros kind Hkind Htype. rewrite Htype in H. simpl in Hkind.
    destruct Hkind as [Hk|[Hk|[]]]; subst kind; simpl in H;
      apply (text_property_string _ _ _ H).
  - intros kind Hkind Htype. rewrite Htype in H. simpl in Hkind.
    destruct Hkind as [Hk|[Hk|[Hk|[]]]]; subst kind; simpl in H;
      apply (optional_map_array _ _ _ _ H).
  - intros kind Hkind Htype. rewrite Htype in H. simpl in Hkind.
    destruct Hkind as [Hk|[Hk|[]]]; subst kind; simpl in H;
      match type of H with
      | bind (get value ?k) _ = _ => destruct (get value k) as [sub|e]; [|discriminate]
      end; simpl in H;
      match type of H with
      | bind ?c _ = _ => destruct c as [name|e]; [|discriminate]
      end; simpl in H; inversion H; apply or_else_defined; discriminate.
Qed.

(** X12. A member of the wrong type is not tolerated the way a missing one
    is: for [title], [rich_text], [multi_select], [people] and [relation], a
    member that is present but is not an array makes the normalization throw
    on the call of [map]. *)
Theorem normalizer_throws_on_non_array (value sub : JsVal) (kind : string) :
  In kind ["title"; "rich_text"; "multi_select"; "people"; "relation"] ->
  get value "type" = Ok (JStr kind) ->
  get value kind = Ok sub ->
  is_nullish sub = false ->
  (forall items, sub <> JArr items) ->
  property_value value = Throw (TypeError (NotAFunction "map")).
Proof.
  intros Hkind Htype Hsub Hpresent Hshape.
  unfold property_value. spell. rewrite Htype. simpl in Hkind.
  repeat (destruct Hkind as [Hk|Hkind];
          [subst kind; simpl; unfold text_property, optional_map;
           rewrite Hsub; simpl; rewrite Hpresent;
           destruct sub; try discriminate; try reflexivity;
           exfalso; eapply Hshape; reflexivity|]).
  contradiction.
Qed.

(** ** The page tool from end to end *)

(** X13. The parts compose: against a client that retrieves a page with a
    string [url] and a property map of documented values without the key
    [__proto__], and lists documented blocks in N responses of which only
    the last has a falsy cursor, the page tool with fuel for N turns returns
    the payload of the requested id, the page's url, the normalized
    properties, the table's lines without the empty ones joined by two
    newlines, and the number of blocks, after one retrieval and N
    listings. *)
Theorem page_tool_end_to_end (front : list Listing) (final : Listing)
  (typed : list Block) (page0 : JsVal) (fields : list (string * JsVal))
  (props : list Property) (url : string) (fuel : nat) (page_id : string)
  (rest : list (Result JsVal)) (searched : Result JsVal)
  (log : list (Request * Result JsVal)) :
  Forall well_listed (front ++ [final]) ->
  Forall (fun l => to_boolean (listing_cursor l) = true) front ->
  to_boolean (listing_cursor final) = false ->
  length (front ++ [final]) <= fuel ->
  Forall2 represents (all_results (front ++ [final])) typed ->
  get page0 "url" = Ok (JStr url) ->
  get page0 "properties" = Ok (JObj fields) ->
  NoDup (map fst fields) ->
  ~ In "__proto__" (map fst fields) ->
  modelled fields props ->
  get_notion_page scripted fuel page_id
    {| client := script (Ok page0) (listed (front ++ [final]) ++ rest)%list searched;
       calls := log |}
  = Some
      (Ok (JObj [("page_id", JStr page_id);
                 ("url", JStr url);
                 ("properties",
                  json_view (JObj (combine (map fst fields) (map spec_normalize props))));
                 ("content",
                  JStr (String.concat (newline ++ newline)
                          (filter (fun text => Nat.ltb 0 (String.length text))
                                  (map spec_render typed))));
                 ("total_blocks", JNum (number_of_length (length typed)))]),
       {| client := script (Ok page0) rest searched;
          calls := (log ++ (retrieve_request page_id, Ok page0)
                    :: listing_calls page_id JUndefined (front ++ [final]))%list |}).
Proof.
  intros Hwell Hmore Hlast Hfuel Htyped Hurl Hfields Hnd Hproto Hmodel.
  unfold get_notion_page, getPageContent, await at 1. simpl.
  rewrite (paginate_drains front final fuel page_id (Ok page0) searched rest _
             Hwell Hmore Hlast Hfuel).
  simpl. unfold rendered_lines.
  rewrite (mapM_render_documented _ _ Htyped). simpl.
  rewrite (extractAllProperties_keeps_keys _ _ _ Hfields Hnd Hproto Hmodel). simpl.
  spell. rewrite Hurl. simpl.
  rewrite (Forall2_length Htyped), <- app_assoc. reflexivity.
Qed.

(** ** A page that cannot be normalized *)


(** ** Blocks with members missing or loosely typed *)

(** X15. A block without a [type] member renders as ["[undefined]"] and one
    whose [type] is [null] as ["[null]"]: both are kept as lines.  An element
    of the block sequence that is itself [null] or [undefined] makes the
    renderer throw on the read of [type]. *)
Theorem render_without_kind :
  (forall block, get block "type" = Ok JUndefined -> render block = Ok "[undefined]") /\
  (forall block, get block "type" = Ok JNull -> render block = Ok "[null]") /\
  (forall block, is_nullish block = true ->
                 render block = Throw (TypeError (ReadOfNullish "type"))).
Proof.
  split; [|split].
  - intros block H. unfold render. spell. rewrite H. reflexivity.
  - intros block H. unfold render. spell. rewrite H. reflexivity.
  - intros block H. unfold render. spell. rewrite (get_nullish _ _ H). reflexivity.
Qed.

Lemma join_element_run (item : JsVal) :
  run_joinable item = true ->
  get item "plain_text" = Ok (field item "plain_text") /\
  join_element (field item "plain_text") = Ok (run_text item).
Proof.
  unfold run_joinable, run_text. intro H.
  apply andb_true_iff in H. destruct H as [Hpresent Hshape].
  apply negb_true_iff in Hpresent. split; [apply (get_field _ _ Hpresent)|].
  destruct (field item "plain_text"); try discriminate; reflexivity.
Qed.

Lemma array_join_runs (items : list JsVal) :
  forallb run_joinable items = true ->
  array_join "" (map (fun item => field item "plain_text") items)
  = Ok (String.concat "" (map run_text items)).
Proof.
  induction items as [|x rest IH]; intro H; [reflexivity|].
  simpl in H. apply andb_true_iff in H. destruct H as [Hx Hrest].
  destruct (join_element_run x Hx) as [_ Hjoin].
  destruct rest as [|y rest]; [exact Hjoin|].
  change (array_join "" (map (fun item => field item "plain_text") (x :: y :: rest)))
    with (s <- join_element (field x "plain_text") ;;
          t <- array_join "" (map (fun item => field item "plain_text") (y :: rest)) ;;
          Ok (s ++ "" ++ t)).
  rewrite Hjoin, (IH Hrest). reflexivity.
Qed.

Lemma joined_runs_loose (payload : JsVal) (items : list JsVal) :
  get payload "rich_text" = Ok (JArr items) ->
  forallb run_joinable items = true ->
  joined_runs payload = Ok (String.concat "" (map run_text items)).
Proof.
  intros Hrich Hitems. unfold joined_runs. spell. rewrite Hrich. simpl.
  assert (mapM (fun t => get t "plain_text") items
          = Ok (map (fun item => field item "plain_text") items)) as Hmap.
  { clear Hrich. induction items as [|x rest IH]; simpl; [reflexivity|].
    simpl in Hitems. apply andb_true_iff in Hitems. destruct Hitems as [Hx Hrest].
    rewrite (proj1 (join_element_run x Hx)), (IH Hrest). reflexivity. }
  rewrite Hmap. simpl. apply array_join_runs. exact Hitems.
Qed.

(** X16. A run whose [plain_text] is missing or [null] contributes nothing
    to the joined text, where a missing language tag of a code block is
    written out as [undefined]; the checked flag of a to-do item is taken by
    truthiness, so a missing flag gives the unchecked mark. *)
Theorem render_loose_members (block payload : JsVal) (items : list JsVal) :
  get payload "rich_text" = Ok (JArr items) ->
  forallb run_joinable items = true ->
  (get block "type" = Ok (JStr "paragraph") -> get block "paragraph" = Ok payload ->
   render block = Ok (String.concat "" (map run_text items))) /\
  (forall flag,
     get block "type" = Ok (JStr "to_do") -> get block "to_do" = Ok payload ->
     get payload "checked" = Ok flag ->
     render block
     = Ok ((if to_boolean flag then "✓ " else "○ ")
           ++ String.concat "" (map run_text items))) /\
  (get block "type" = Ok (JStr "code") -> get block "code" = Ok payload ->
   get payload "language" = Ok JUndefined ->
   render block
   = Ok ("```undefined" ++ newline ++ String.concat "" (map run_text items)
         ++ newline ++ "```")).
Proof.
  intros Hrich Hitems.
  pose proof (joined_runs_loose payload items Hrich Hitems) as Hjoined.
  split; [|split].
  - intros Htype Hpayload. unfold render. spell. rewrite Htype. simpl.
    rewrite Hpayload. simpl. exact Hjoined.
  - intros flag Htype Hpayload Hflag. unfold render. spell. rewrite Htype. simpl.
    rewrite Hpayload. simpl. rewrite Hflag. simpl. rewrite Hjoined.
    destruct (to_boolean flag); reflexivity.
  - intros Htype Hpayload Hlanguage. unfold render. spell. rewrite Htype. simpl.
    rewrite Hpayload. simpl. rewrite Hlanguage. simpl. rewrite Hjoined. reflexivity.
Qed.

(** ** A listing that never ends *)

Lemma paginate_never_returns (ClientState : Type)
  (notion : Request -> ClientState -> Result JsVal * ClientState)
  (pageId : string) (live : ClientState -> Prop) :
  (forall cursor st,
     live st ->
     exists response results next st',
       notion (list_request pageId cursor) st = (Ok response, st') /\ live st' /\
       get response "results" = Ok (JArr results) /\
       get response "next_cursor" = Ok next /\ to_boolean next = true) ->
  forall fuel cursor acc (w : World ClientState),
    live (client w) -> paginate notion fuel pageId cursor acc w = None.
Proof.
  intros Hlive fuel. induction fuel as [|fuel IH]; intros cursor acc w Hw; [reflexivity|].
  destruct (Hlive cursor (client w) Hw)
    as (response & results & next & st' & Hcall & Hlive' & Hres & Hnext & Htrue).
  simpl. unfold await. rewrite Hcall. simpl. unfold absorb. spell.
  rewrite Hres. simpl. rewrite Hnext. simpl. rewrite Htrue.
  apply IH. exact Hlive'.
Qed.

(** X17. The pagination loop has no bound of its own: against a client that
    answers every listing for the page with an array of results and a truthy
    cursor, the loop makes a further call after every answer, so for no
    number of turns does it return, and neither does [getPageContent] once
    the page was retrieved. *)
Theorem pagination_has_no_bound (ClientState : Type)
  (notion : Request -> ClientState -> Result JsVal * ClientState)
  (pageId : string) (live : ClientState -> Prop) :
  (forall cursor st,
     live st ->
     exists response results next st',
       notion (list_request pageId cursor) st = (Ok response, st') /\ live st' /\
       get response "results" = Ok (JArr results) /\
       get response "next_cursor" = Ok next /\ to_boolean next = true) ->
  forall fuel (w : World ClientState),
    (live (client w) -> paginate notion fuel pageId JUndefined [] w = None) /\
    (forall page0 st,
       notion (retrieve_request pageId) (client w) = (Ok page0, st) -> live st ->
       getPageContent notion fuel pageId w = None).
Proof.
  intros Hlive fuel w. split.
  - apply (paginate_never_returns _ _ _ _ Hlive).
  - intros page0 st Hcall Hst. unfold getPageContent, await. rewrite Hcall.
    rewrite (paginate_never_returns _ _ _ _ Hlive); [reflexivity|exact Hst].
Qed.

(** ** The members of the payloads *)

(** X18. When the page tool succeeds, its payload holds, in this order, the
    requested [page_id], the page's [url] unless the page has none (an
    [undefined] member is not written), the normalized [properties], which
    are an object, the [content] and [total_blocks], and nothing else: the
    raw page and the raw blocks are not part of it. *)
Theorem page_payload_members (ClientState : Type)
  (notion : Request -> ClientState -> Result JsVal * ClientState)
  (fuel : nat) (page_id : string) (w w' : World ClientState) (payload : JsVal) :
  get_notion_page notion fuel page_id w = Some (Ok payload, w') ->
  exists pd url out,
    getPageContent notion fuel page_id w = Some (Ok pd, w') /\
    get (page pd) "url" = Ok url /\
    properties pd = JObj out /\
    payload
    = JObj (("page_id", JStr page_id)
            :: (match url with
                | JUndefined => []
                | _ => [("url", json_view url)]
                end
                ++ [("properties", json_view (JObj out));
                    ("content", JStr (content pd));
                    ("total_blocks", JNum (number_of_length (length (blocks pd))))])%list).
Proof.
  unfold get_notion_page. intro H.
  destruct (getPageContent notion fuel page_id w) as [[outcome w2]|] eqn:Erun;
    [|discriminate].
  inversion H as [[Hr Hw]]. subst w2. clear H.
  destruct outcome as [pd|e]; [|discriminate].
  destruct (getPageContent_returns _ _ _ _ _ _ _ Erun)
    as (w1 & lines & _ & _ & _ & _ & Hprops).
  simpl in Hr.
  pose proof (get_field (page pd) "url" (extractAllProperties_page_present _ _ Hprops))
    as Hurl.
  rewrite (get_field _ _ (extractAllProperties_page_present _ _ Hprops)) in Hr.
  simpl in Hr. inversion Hr as [Hpayload].
  destruct (extractAllProperties_object _ _ Hprops) as [out Hout].
  exists pd, (field (page pd) "url"), out.
  split; [reflexivity|]. split; [exact Hurl|]. split; [exact Hout|].
  rewrite Hout. spell. destruct (field (page pd) "url"); reflexivity.
Qed.

Lemma search_result_object (p r : JsVal) :
  search_result p = Ok r -> exists fields, r = JObj fields.
Proof.
  unfold search_result. intro H.
  repeat match type of H with
         | bind ?c _ = _ => destruct c; [|discriminate]; simpl in H
         end.
  inversion H. eexists. reflexivity.
Qed.

Lemma json_view_entries (pages entries : list JsVal) :
  mapM search_result pages = Ok entries ->
  map (fun x => match x with
                | JUndefined => JNull
                | _ => json_view x
                end) entries
  = map json_view entries.
Proof.
  revert entries. induction pages as [|p pages IH]; intros entries H; simpl in H.
  - inversion H. reflexivity.
  - destruct (search_result p) as [r|e] eqn:Er; simpl in H; [|discriminate].
    destruct (mapM search_result pages) as [rs|e]; simpl in H; [|discriminate].
    inversion H; subst. destruct (search_result_object _ _ Er) as [fields ->].
    simpl. f_equal. apply (IH rs eq_refl).
Qed.

(** X19. The search tool succeeds only on an array: when it returns a
    payload, the client answered with a response whose [results] member is
    an array, every page of it gave an entry, and the payload is the query,
    the number of pages of the response as [total_results], and the entries
    in the order of the pages.  Nothing of the response besides [results] is
    read: its cursor is not followed. *)
Theorem search_success_shape (ClientState : Type)
  (notion : Request -> ClientState -> Result JsVal * ClientState)
  (query : string) (w : World ClientState) (payload : JsVal) :
  fst (search_notion notion query w) = Ok payload ->
  exists response pages entries,
    notion (search_request query) (client w)
    = (Ok response, client (snd (search_notion notion query w))) /\
    length (calls (snd (search_notion notion query w))) = S (length (calls w)) /\
    get response "results" = Ok (JArr pages) /\
    mapM search_result pages = Ok entries /\
    payload = JObj [("query", JStr query);
                    ("total_results", JNum (number_of_length (length pages)));
                    ("results", JArr (map json_view entries))].
Proof.
  unfold search_notion, await.
  destruct (notion (search_request query) (client w)) as [outcome next]. simpl.
  intro H. destruct outcome as [response|e]; [|discriminate]. simpl in H. spell.
  destruct (get response "results") as [listed0|e] eqn:Eresults; [|discriminate].
  simpl in H. unfold call_map in H.
  destruct listed0 as [| | | | |pages|]; try discriminate.
  destruct (mapM search_result pages) as [entries|e] eqn:Emap; [|discriminate].
  simpl in H. inversion H as [Hpayload].
  exists response, pages, entries.
  split; [reflexivity|]. split; [rewrite length_app, Nat.add_comm; reflexivity|].
  split; [exact Eresults|]. split; [exact Emap|].
  rewrite (json_view_entries _ _ Emap), (mapM_length _ _ _ Emap). reflexivity.
Qed.

(** ** A listing that cannot be spread *)


End Runtime.

(** * The examples, run on the engine instance *)

Arguments JUndefined {_}.
Arguments JNull {_}.
Arguments JBool {_} b.
Arguments JNum {_} n.
Arguments JStr {_} s.
Arguments JArr {_} items.
Arguments JObj {_} fields.

Notation render_v8 :=
  (render Z Engine.number_to_boolean Engine.number_to_string).
Notation extractAllProperties_v8 :=
  (extractAllProperties Z Engine.number_to_boolean Engine.number_to_string
     Engine.code_units).
Notation paginate_v8 :=
  (paginate Z Engine.number_to_boolean Engine.code_points (Script Z) (scripted Z)).
Notation getPageContent_v8 :=
  (getPageContent Z Engine.number_to_boolean Engine.number_to_string
     Engine.type_error_message Engine.code_units Engine.code_points
     (Script Z) (scripted Z)).
Notation get_notion_page_v8 :=
  (get_notion_page Z Engine.number_to_boolean Engine.number_to_string
     Engine.number_of_length Engine.type_error_message Engine.code_units
     Engine.code_points (Script Z) (scripted Z)).
Notation search_notion_v8 :=
  (search_notion Z Engine.number_to_boolean Engine.number_to_string
     Engine.number_of_length Engine.type_error_message Engine.code_units
     (Script Z) (scripted Z)).

Ltac shape :=
  repeat (first [ reflexivity
                | discriminate
                | match goal with |- In _ _ => simpl; tauto end
                | match goal with |- _ \/ _ => solve [auto 20] end
                | split
                | eexists
                | apply Forall2_cons
                | apply Forall2_nil
                | left; reflexivity
                | right; reflexivity ]).

(** The heading and the to-do item of the end-to-end examples render as
    the table says. *)
Lemma render_matches_table_witness :
  (represents Z (example_heading Z) (TextBlock Heading2 ["Intro"]) /\
   render_v8 (example_heading Z) = Ok "## Intro") /\
  (represents Z (example_to_do Z) (ToDo false ["Buy "; "milk"]) /\
   render_v8 (example_to_do Z) = Ok "○ Buy milk").
Proof.
  assert (represents Z (example_heading Z) (TextBlock Heading2 ["Intro"])) as H1.
  { simpl. shape. }
  assert (represents Z (example_to_do Z) (ToDo false ["Buy "; "milk"])) as H2.
  { simpl. shape. }
  split; (split; [assumption|]).
  - exact (render_matches_table Z Engine.number_to_boolean Engine.number_to_string
             _ _ H1).
  - exact (render_matches_table Z Engine.number_to_boolean Engine.number_to_string
             _ _ H2).
Defined.





(** C4. A property named [__proto__] is missing from the output: the
    assignment under that key reaches the inherited setter and creates no
    own property, so the output for this one-key map has no key at all. *)
Theorem extractAllProperties_drops_proto_key :
  get Z (proto_page Z) "properties" = Ok (JObj (proto_properties Z)) /\
  map fst (proto_properties Z) = ["__proto__"] /\
  extractAllProperties_v8 (proto_page Z) = Ok (JObj []).
Proof.
  repeat split; reflexivity.
Qed.



(** The example page has three raw blocks and two surviving lines; the
    payload counts three. *)
Lemma total_blocks_counts_fetched_blocks_witness :
  exists payload w',
    get_notion_page_v8 5 "p1" (example_world Z Engine.number_of_length)
    = Some (Ok payload, w') /\
    get Z payload "total_blocks" = Ok (JNum 3%Z) /\
    exists pd w1,
      getPageContent_v8 5 "p1" (example_world Z Engine.number_of_length)
      = Some (Ok pd, w') /\
      paginate_v8 5 "p1" JUndefined [] w1 = Some (Ok (blocks Z pd), w') /\
      get Z payload "total_blocks"
      = Ok (JNum (Engine.number_of_length (length (blocks Z pd)))).
Proof.
  eexists. eexists.
  match goal with
  | |- ?run /\ _ => assert run as Hrun by (vm_compute; reflexivity)
  end.
  split; [exact Hrun|]. split; [reflexivity|].
  exact (total_blocks_counts_fetched_blocks Z Engine.number_to_boolean
           Engine.number_to_string Engine.number_of_length Engine.type_error_message
           Engine.code_units Engine.code_points
           (Script Z) (scripted Z) _ _ _ _ _ Hrun).
Defined.


(** The second block listing fails with ["rate limited"]. *)
Lemma retrieval_failure_is_wrapped_witness :
  (Forall (well_listed Z) [first_listing Z] /\
   Forall (fun l => to_boolean Z Engine.number_to_boolean (listing_cursor Z l) = true)
          [first_listing Z] /\
   length [first_listing Z] < 2) /\
  option_map fst (getPageContent_v8 2 "p1" (failing_world Z Engine.number_of_length))
  = Some (Throw (Error "Failed to get page content: rate limited")).
Proof.
  assert (Forall (well_listed Z) [first_listing Z]) as H1 by (repeat constructor).
  assert (Forall (fun l => to_boolean Z Engine.number_to_boolean (listing_cursor Z l)
                           = true) [first_listing Z]) as H2 by (repeat constructor).
  assert (length [first_listing Z] < 2) as H3 by (simpl; lia).
  split; [auto|].
  exact (proj2 (proj2 (retrieval_failure_is_wrapped Z Engine.number_to_boolean
                         Engine.number_to_string Engine.type_error_message
                         Engine.code_units Engine.code_points))
           (example_page Z Engine.number_of_length) [first_listing Z] "rate limited" []
           (Ok (search_response Z Engine.number_of_length)) 2 "p1" [] H1 H2 H3).
Defined.

(** The same failure seen at the tool boundary. *)
Lemma page_tool_stacks_two_prefixes_witness :
  exists w',
    getPageContent_v8 2 "p1" (failing_world Z Engine.number_of_length)
    = Some (Throw (Error "Failed to get page content: rate limited"), w') /\
    get_notion_page_v8 2 "p1" (failing_world Z Engine.number_of_length)
    = Some (Throw (Error "Failed to get page: Failed to get page content: rate limited"),
            w').
Proof.
  eexists.
  match goal with
  | |- ?run /\ _ => assert run as Hrun by (vm_compute; reflexivity)
  end.
  split; [exact Hrun|].
  refine (proj2 (page_tool_stacks_two_prefixes Z Engine.number_to_boolean
                   Engine.number_to_string Engine.number_of_length
                   Engine.type_error_message Engine.code_units Engine.code_points
                   (Script Z) (scripted Z) _ _ _ _ _ Hrun)
            _ (list_request Z "p1" (JStr "abc")) "rate limited" eq_refl _).
  simpl. auto.
Defined.

(** * The further properties, run on the engine instance *)

Notation property_value_v8 :=
  (property_value Z Engine.number_to_boolean Engine.number_to_string).
Notation search_result_v8 :=
  (search_result Z Engine.number_to_boolean Engine.number_to_string Engine.code_units).

(** The paragraph with no runs renders to the empty string. *)
Lemma render_empty_is_paragraph_witness :
  render_v8 (example_empty_paragraph Z) = Ok "" /\
  get Z (example_empty_paragraph Z) "type" = Ok (JStr "paragraph").
Proof.
  assert (render_v8 (example_empty_paragraph Z) = Ok "") as H by reflexivity.
  split; [exact H|].
  exact (render_empty_is_paragraph Z Engine.number_to_boolean Engine.number_to_string
           _ H).
Defined.

(** A paragraph without payload between a heading and a divider. *)
Lemma unrenderable_block_fails_page_witness :
  exists w1 w2,
    (await Z (Script Z) (scripted Z) (retrieve_request Z "p1")
           (malformed_world Z Engine.number_of_length)
     = (Ok (example_page Z Engine.number_of_length), w1) /\
     paginate_v8 3 "p1" JUndefined [] w1
     = Some (Ok ([example_heading Z] ++ bare_paragraph Z :: [example_divider Z])%list, w2) /\
     mapM render_v8 [example_heading Z] = Ok ["## Intro"] /\
     render_v8 (bare_paragraph Z) = Throw (TypeError (ReadOfNullish "rich_text"))) /\
    getPageContent_v8 3 "p1" (malformed_world Z Engine.number_of_length)
    = Some (Throw (Error ("Failed to get page content: "
                          ++ "Cannot read properties of undefined (reading 'rich_text')")),
            w2).
Proof.
  eexists. eexists.
  match goal with
  | |- (?a /\ ?b /\ ?c /\ ?d) /\ _ =>
      assert a as H1 by (vm_compute; reflexivity);
      assert b as H2 by (vm_compute; reflexivity);
      assert c as H3 by reflexivity;
      assert d as H4 by reflexivity
  end.
  split; [auto|].
  exact (unrenderable_block_fails_page Z Engine.number_to_boolean
           Engine.number_to_string Engine.type_error_message Engine.code_units
           Engine.code_points (Script Z) (scripted Z) _ _ _ _ _ _ _ _ _ _ _
           H1 H2 H3 H4).
Defined.

(** A page of two empty paragraphs: two blocks, empty content. *)
Lemma content_empty_iff_blank_witness :
  exists pd w',
    getPageContent_v8 3 "p1" (blank_world Z Engine.number_of_length) = Some (Ok pd, w') /\
    length (blocks Z pd) = 2 /\
    content Z pd = "" /\
    Forall (fun block => render_v8 block = Ok "") (blocks Z pd) /\
    Forall (fun block => get Z block "type" = Ok (JStr "paragraph")) (blocks Z pd).
Proof.
  eexists. eexists.
  match goal with
  | |- ?run /\ _ => assert run as Hrun by (vm_compute; reflexivity)
  end.
  pose proof (content_empty_iff_blank Z Engine.number_to_boolean
                Engine.number_to_string Engine.type_error_message Engine.code_units
                Engine.code_points (Script Z) (scripted Z) _ _ _ _ _ Hrun)
    as [Hiff Hkinds].
  split; [exact Hrun|]. split; [reflexivity|].
  match goal with
  | |- ?empty /\ _ => assert empty as Hempty by reflexivity
  end.
  split; [exact Hempty|]. split.
  - exact (proj1 Hiff Hempty).
  - exact (Hkinds Hempty).
Defined.


(** A refused search. *)
Lemma search_failure_is_wrapped_witness :
  scripted Z (search_request Z "road")
           (client Z (Script Z) (refused_world Z Engine.number_of_length))
  = (Throw (Error "API token is invalid."),
     client Z (Script Z) (refused_world Z Engine.number_of_length)) /\
  fst (search_notion_v8 "road" (refused_world Z Engine.number_of_length))
  = Throw (Error "Failed to search Notion: API token is invalid.") /\
  exists cause,
    Error "Failed to search Notion: API token is invalid."
    = Error ("Failed to search Notion: " ++ cause).
Proof.
  pose proof (search_failure_is_wrapped Z Engine.number_to_boolean
                Engine.number_to_string Engine.number_of_length
                Engine.type_error_message Engine.code_units (Script Z) (scripted Z)
                "road" (refused_world Z Engine.number_of_length)) as [Hany Hcall].
  assert (scripted Z (search_request Z "road")
                   (client Z (Script Z) (refused_world Z Engine.number_of_length))
          = (Throw (Error "API token is invalid."),
             client Z (Script Z) (refused_world Z Engine.number_of_length))) as H1
    by reflexivity.
  pose proof (f_equal fst (Hcall _ _ H1)) as Hfails. simpl in Hfails.
  split; [exact H1|]. split; [exact Hfails|].
  exact (Hany _ Hfails).
Defined.


(** A partial page object has no property map. *)
Lemma extractAllProperties_without_map_witness :
  (get Z (partial_page Z) "properties" = Ok JUndefined /\
   to_boolean Z Engine.number_to_boolean JUndefined = false) /\
  extractAllProperties_v8 (partial_page Z) = Ok (JObj []) /\
  (is_nullish Z JNull = true /\
   extractAllProperties_v8 JNull = Throw (TypeError (ReadOfNullish "properties"))).
Proof.
  pose proof (extractAllProperties_without_map Z Engine.number_to_boolean
                Engine.number_to_string Engine.code_units) as [Hfalsy Hnull].
  assert (get Z (partial_page Z) "properties" = Ok JUndefined) as H1 by reflexivity.
  assert (to_boolean Z Engine.number_to_boolean JUndefined = false) as H2
    by reflexivity.
  assert (is_nullish Z JNull = true) as H3 by reflexivity.
  split; [auto|]. split; [exact (Hfalsy _ _ H1 H2)|].
  split; [exact H3|exact (Hnull _ H3)].
Defined.

(** The map with a [null] after a checkbox. *)
Lemma extractAllProperties_fails_on_bad_value_witness :
  (get Z (null_valued_page Z) "properties"
   = Ok (JObj ([("Done", JObj [("id", JStr "a1"); ("type", JStr "checkbox");
                               ("checkbox", JBool true)])]
               ++ ("Broken", JNull)
               :: [("Tags", JObj [("id", JStr "a2"); ("type", JStr "multi_select");
                                 ("multi_select", JArr [])])])%list) /\
   Forall2 (fun entry out => property_value_v8 (snd entry) = Ok out)
           [("Done", JObj [("id", JStr "a1"); ("type", JStr "checkbox");
                           ("checkbox", JBool true)])]
           [JBool true] /\
   property_value_v8 JNull = Throw (TypeError (ReadOfNullish "type"))) /\
  extractAllProperties_v8 (null_valued_page Z) = Throw (TypeError (ReadOfNullish "type")).
Proof.
  assert (Forall2 (fun entry out => property_value_v8 (snd entry) = Ok out)
            [("Done", JObj [("id", JStr "a1"); ("type", JStr "checkbox");
                            ("checkbox", JBool true)])]
            [JBool true]) as H2 by (repeat constructor).
  assert (property_value_v8 JNull = Throw (TypeError (ReadOfNullish "type"))) as H3
    by reflexivity.
  match goal with
  | |- (?map /\ _) /\ _ => assert map as H1 by reflexivity
  end.
  split; [auto|].
  exact (proj1 (extractAllProperties_fails_on_bad_value Z Engine.number_to_boolean
                  Engine.number_to_string Engine.code_units (null_valued_page Z)
                  _ _ "Broken" JNull _ _ H1 H2 H3)).
Defined.

(** The page with a [__proto__] property: no key comes out. *)
Lemma extractAllProperties_keys_witness :
  (get Z (proto_page Z) "properties" = Ok (JObj (proto_properties Z)) /\
   extractAllProperties_v8 (proto_page Z) = Ok (JObj [])) /\
  NoDup (map fst (@nil (string * JsVal Z))) /\
  forall k, In k (map fst (@nil (string * JsVal Z)))
            <-> In k (map fst (proto_properties Z)) /\ k <> "__proto__".
Proof.
  assert (get Z (proto_page Z) "properties" = Ok (JObj (proto_properties Z))) as H1
    by reflexivity.
  assert (extractAllProperties_v8 (proto_page Z) = Ok (JObj [])) as H2 by reflexivity.
  split; [auto|].
  exact (extractAllProperties_keys Z Engine.number_to_boolean Engine.number_to_string
           Engine.code_units Engine.code_points _ _ _ H1 H2).
Defined.

(** The multi-select of the example map: two options, two names. *)
Lemma normalized_value_shape_witness :
  property_value_v8
    (JObj [("id", JStr "a2"); ("type", JStr "multi_select");
           ("multi_select", JArr [JObj [("name", JStr "A")]; JObj [("name", JStr "B")]])])
  = Ok (JArr [JStr "A"; JStr "B"]) /\
  exists items,
    JArr [JStr "A"; JStr "B"] = JArr (Number := Z) items /\
    forall xs,
      get Z (JObj [("id", JStr "a2"); ("type", JStr "multi_select");
                   ("multi_select",
                    JArr [JObj [("name", JStr "A")]; JObj [("name", JStr "B")]])])
          "multi_select" = Ok (JArr xs) ->
      length items = length xs.
Proof.
  match goal with
  | |- ?run /\ _ => assert run as Hrun by reflexivity
  end.
  split; [exact Hrun|].
  refine (proj1 (proj2 (normalized_value_shape Z Engine.number_to_boolean
                          Engine.number_to_string _ _ Hrun))
            "multi_select" _ eq_refl).
  simpl. auto.
Defined.

(** A title given as a string. *)
Lemma normalizer_throws_on_non_array_witness :
  (In "title" ["title"; "rich_text"; "multi_select"; "people"; "relation"] /\
   get Z (title_as_text Z) "type" = Ok (JStr "title") /\
   get Z (title_as_text Z) "title" = Ok (JStr "Roadmap") /\
   is_nullish Z (JStr "Roadmap") = false /\
   (forall items, JStr "Roadmap" <> JArr (Number := Z) items)) /\
  property_value_v8 (title_as_text Z) = Throw (TypeError (NotAFunction "map")).
Proof.
  assert (In "title" ["title"; "rich_text"; "multi_select"; "people"; "relation"])
    as H1 by (simpl; auto).
  assert (forall items, JStr "Roadmap" <> JArr (Number := Z) items) as H5
    by (intros items; discriminate).
  split; [repeat split; try reflexivity; assumption|].
  exact (normalizer_throws_on_non_array Z Engine.number_to_boolean
           Engine.number_to_string (title_as_text Z) (JStr "Roadmap") "title"
           H1 eq_refl eq_refl eq_refl H5).
Defined.

(** The example page through the page tool. *)
Lemma page_tool_end_to_end_witness :
  (Forall (well_listed Z) ([first_listing Z] ++ [last_listing Z]) /\
   Forall (fun l => to_boolean Z Engine.number_to_boolean (listing_cursor Z l) = true)
          [first_listing Z] /\
   to_boolean Z Engine.number_to_boolean (listing_cursor Z (last_listing Z)) = false /\
   length ([first_listing Z] ++ [last_listing Z]) <= 5 /\
   Forall2 (represents Z) (all_results Z ([first_listing Z] ++ [last_listing Z]))
           [Divider; TextBlock Paragraph []; TextBlock Heading2 ["Intro"]] /\
   get Z (example_page Z Engine.number_of_length) "url"
   = Ok (JStr "https://www.notion.so/p1") /\
   get Z (example_page Z Engine.number_of_length) "properties"
   = Ok (JObj (example_properties Z Engine.number_of_length)) /\
   NoDup (map fst (example_properties Z Engine.number_of_length)) /\
   ~ In "__proto__" (map fst (example_properties Z Engine.number_of_length)) /\
   modelled Z (example_properties Z Engine.number_of_length)
            (example_model Z Engine.number_of_length)) /\
  option_map fst
    (get_notion_page_v8 5 "p1" (example_world Z Engine.number_of_length))
  = Some (Ok (JObj [("page_id", JStr "p1");
                    ("url", JStr "https://www.notion.so/p1");
                    ("properties",
                     JObj [("Name", JStr "Roadmap");
                           ("Done", JBool true);
                           ("Tags", JArr [JStr "A"; JStr "B"]);
                           ("Stage", JNull);
                           ("Owner", JArr [JStr "Ada"; JStr "u2"]);
                           ("Estimate", JNum 8%Z);
                           ("Notes", JStr "")]);
                    ("content", JStr ("---" ++ newline ++ newline ++ "## Intro"));
                    ("total_blocks", JNum 3%Z)])).
Proof.
  assert (Forall (well_listed Z) ([first_listing Z] ++ [last_listing Z])) as H1
    by (repeat constructor).
  assert (Forall (fun l => to_boolean Z Engine.number_to_boolean (listing_cursor Z l)
                           = true) [first_listing Z]) as H2 by (repeat constructor).
  assert (to_boolean Z Engine.number_to_boolean (listing_cursor Z (last_listing Z))
          = false) as H3 by reflexivity.
  assert (length ([first_listing Z] ++ [last_listing Z]) <= 5) as H4 by (simpl; lia).
  assert (Forall2 (represents Z) (all_results Z ([first_listing Z] ++ [last_listing Z]))
            [Divider; TextBlock Paragraph []; TextBlock Heading2 ["Intro"]]) as H5.
  { unfold all_results. simpl.
    repeat (apply Forall2_cons; [simpl; shape|]). apply Forall2_nil. }
  assert (NoDup (map fst (example_properties Z Engine.number_of_length))) as H8.
  { simpl. repeat constructor; simpl; intuition discriminate. }
  assert (~ In "__proto__" (map fst (example_properties Z Engine.number_of_length)))
    as H9 by (simpl; intuition discriminate).
  assert (modelled Z (example_properties Z Engine.number_of_length)
                   (example_model Z Engine.number_of_length)) as H10.
  { unfold modelled, example_properties, example_model.
    repeat (apply Forall2_cons; [simpl; shape|]). apply Forall2_nil. }
  split; [repeat split; try reflexivity; assumption|].
  exact (f_equal (option_map fst)
           (page_tool_end_to_end Z Engine.number_to_boolean Engine.number_to_string
              Engine.number_of_length Engine.type_error_message Engine.code_units
              Engine.code_points [first_listing Z] (last_listing Z) _
              (example_page Z Engine.number_of_length) _ _ _ 5 "p1" []
              (Ok (search_response Z Engine.number_of_length)) []
              H1 H2 H3 H4 H5 eq_refl eq_refl H8 H9 H10)).
Defined.


(** A block without [type], and a [null] in place of a block. *)
Lemma render_without_kind_witness :
  (get Z (untyped_block Z) "type" = Ok JUndefined /\
   render_v8 (untyped_block Z) = Ok "[undefined]") /\
  (is_nullish Z JNull = true /\
   render_v8 JNull = Throw (TypeError (ReadOfNullish "type"))).
Proof.
  pose proof (render_without_kind Z Engine.number_to_boolean Engine.number_to_string)
    as [Hundefined [_ Hnull]].
  assert (get Z (untyped_block Z) "type" = Ok JUndefined) as H1 by reflexivity.
  assert (is_nullish Z JNull = true) as H2 by reflexivity.
  split; (split; [assumption|]).
  - exact (Hundefined _ H1).
  - exact (Hnull _ H2).
Defined.

(** A to-do item with no flag and a run with no text; a code block with no
    language. *)
Lemma render_loose_members_witness :
  (get Z (field Z (loose_to_do Z) "to_do") "rich_text"
   = Ok (JArr [text_run Z "Call "; JObj [("type", JStr "mention")]; text_run Z "back"]) /\
   forallb (run_joinable Z)
           [text_run Z "Call "; JObj [("type", JStr "mention")]; text_run Z "back"]
   = true /\
   get Z (loose_to_do Z) "type" = Ok (JStr "to_do") /\
   get Z (loose_to_do Z) "to_do" = Ok (field Z (loose_to_do Z) "to_do") /\
   get Z (field Z (loose_to_do Z) "to_do") "checked" = Ok JUndefined) /\
  render_v8 (loose_to_do Z) = Ok "○ Call back" /\
  render_v8 (loose_code Z) = Ok ("```undefined" ++ newline ++ "x = 1" ++ newline ++ "```").
Proof.
  assert (get Z (field Z (loose_to_do Z) "to_do") "rich_text"
          = Ok (JArr [text_run Z "Call "; JObj [("type", JStr "mention")];
                      text_run Z "back"])) as H1 by reflexivity.
  assert (forallb (run_joinable Z)
            [text_run Z "Call "; JObj [("type", JStr "mention")]; text_run Z "back"]
          = true) as H2 by reflexivity.
  assert (get Z (field Z (loose_code Z) "code") "rich_text"
          = Ok (JArr [text_run Z "x = 1"])) as H3 by reflexivity.
  assert (forallb (run_joinable Z) [text_run Z "x = 1"] = true) as H4 by reflexivity.
  split; [repeat split; try reflexivity; assumption|]. split.
  - exact (proj1 (proj2 (render_loose_members Z Engine.number_to_boolean
                           Engine.number_to_string (loose_to_do Z) _ _ H1 H2))
             JUndefined eq_refl eq_refl eq_refl).
  - exact (proj2 (proj2 (render_loose_members Z Engine.number_to_boolean
                           Engine.number_to_string (loose_code Z) _ _ H3 H4))
             eq_refl eq_refl eq_refl).
Defined.

(** The insistent client: every listing carries the cursor ["more"]. *)
Lemma pagination_has_no_bound_witness :
  (forall (cursor : JsVal Z) (served : nat),
     True ->
     exists response results next served',
       insistent Z Engine.number_of_length (list_request Z "p1" cursor) served
       = (Ok response, served') /\ True /\
       get Z response "results" = Ok (JArr results) /\
       get Z response "next_cursor" = Ok next /\
       to_boolean Z Engine.number_to_boolean next = true) /\
  (insistent Z Engine.number_of_length (retrieve_request Z "p1") 0
   = (Ok (example_page Z Engine.number_of_length), 0)) /\
  getPageContent Z Engine.number_to_boolean Engine.number_to_string
    Engine.type_error_message Engine.code_units Engine.code_points
    nat (insistent Z Engine.number_of_length) 100 "p1" (Build_World Z nat 0 [])
  = None.
Proof.
  assert (forall (cursor : JsVal Z) (served : nat),
            True ->
            exists response results next served',
              insistent Z Engine.number_of_length (list_request Z "p1" cursor) served
              = (Ok response, served') /\ True /\
              get Z response "results" = Ok (JArr results) /\
              get Z response "next_cursor" = Ok next /\
              to_boolean Z Engine.number_to_boolean next = true) as Hlive.
  { intros cursor served _. eexists. eexists. eexists. eexists.
    split; [reflexivity|]. split; [exact I|]. repeat split; reflexivity. }
  split; [exact Hlive|]. split; [reflexivity|].
  exact (proj2 (pagination_has_no_bound Z Engine.number_to_boolean
                  Engine.number_to_string Engine.type_error_message Engine.code_units
                  Engine.code_points nat (insistent Z Engine.number_of_length) "p1"
                  (fun _ => True) Hlive 100 (Build_World Z nat 0 []))
           (example_page Z Engine.number_of_length) 0 eq_refl I).
Defined.

(** A page without [url]: the payload has four members. *)
Lemma page_payload_members_witness :
  exists payload w',
    get_notion_page_v8 3 "p2" (urlless_world Z Engine.number_of_length)
    = Some (Ok payload, w') /\
    payload = JObj [("page_id", JStr "p2"); ("properties", JObj []);
                    ("content", JStr "---"); ("total_blocks", JNum 1%Z)] /\
    exists pd url out,
      getPageContent_v8 3 "p2" (urlless_world Z Engine.number_of_length)
      = Some (Ok pd, w') /\
      get Z (page Z pd) "url" = Ok url /\
      properties Z pd = JObj out /\
      payload
      = JObj (("page_id", JStr "p2")
              :: (match url with
                  | JUndefined => []
                  | _ => [("url", json_view Z url)]
                  end
                  ++ [("properties", json_view Z (JObj out));
                      ("content", JStr (content Z pd));
                      ("total_blocks",
                       JNum (Engine.number_of_length (length (blocks Z pd))))])%list).
Proof.
  eexists. eexists.
  match goal with
  | |- ?run /\ _ => assert run as Hrun by (vm_compute; reflexivity)
  end.
  split; [exact Hrun|]. split; [reflexivity|].
  exact (page_payload_members Z Engine.number_to_boolean Engine.number_to_string
           Engine.number_of_length Engine.type_error_message Engine.code_units
           Engine.code_points (Script Z) (scripted Z) _ _ _ _ _ Hrun).
Defined.

(** The search of the example client. *)
Lemma search_success_shape_witness :
  exists payload,
    fst (search_notion_v8 "road" (example_world Z Engine.number_of_length)) = Ok payload /\
    get Z payload "total_results" = Ok (JNum 1%Z) /\
    exists response pages entries,
      scripted Z (search_request Z "road")
               (client Z (Script Z) (example_world Z Engine.number_of_length))
      = (Ok response,
         client Z (Script Z)
                (snd (search_notion_v8 "road" (example_world Z Engine.number_of_length)))) /\
      length (calls Z (Script Z)
                    (snd (search_notion_v8 "road"
                            (example_world Z Engine.number_of_length))))
      = S (length (calls Z (Script Z) (example_world Z Engine.number_of_length))) /\
      get Z response "results" = Ok (JArr pages) /\
      mapM (search_result_v8) pages = Ok entries /\
      payload = JObj [("query", JStr "road");
                      ("total_results", JNum (Engine.number_of_length (length pages)));
                      ("results", JArr (map (json_view Z) entries))].
Proof.
  eexists.
  match goal with
  | |- ?run /\ _ => assert run as Hrun by (vm_compute; reflexivity)
  end.
  split; [exact Hrun|]. split; [reflexivity|].
  exact (search_success_shape Z Engine.number_to_boolean Engine.number_to_string
           Engine.number_of_length Engine.type_error_message Engine.code_units
           (Script Z) (scripted Z) _ _ _ Hrun).
Defined.

